(** * fastapi-task-api: the authentication and ownership contract

    A shallow embedding of [main.py], [schemas.py], [models/models.py] and
    [database/database.py].  Python values that the handlers touch are Rocq
    values; the store is threaded explicitly through the handlers; a raised
    exception is a [Raise] result.  The external collaborators, python-jose,
    passlib and the PostgreSQL server behind the session, are interfaces
    (type classes): the handlers are written against them, and only the laws
    a theorem needs are assumed. *)

From stdpp Require Import gmap strings list.

Set Warnings "-register-all".

Local Open Scope string_scope.
Local Open Scope list_scope.
Local Open Scope Z_scope.

(** ** Python values *)

(** Values stored in a token payload (a Python [dict] with [str] keys).
    A [datetime] is the number of microseconds since the epoch (UTC), a
    [timedelta] a number of microseconds. *)
Inductive pyval : Type :=
| PNone
| PStr (s : string)
| PInt (z : Z)
| PDatetime (us : Z).

Definition timedelta_minutes (minutes : Z) : Z := minutes * 60 * 1000000.

(** [calendar.timegm(d.utctimetuple())]: whole seconds since the epoch, the
    microseconds dropped. *)
Definition timegm (us : Z) : Z := us `div` 1000000.

(** Exceptions that leave a handler.  No handler of the application catches
    a [ValidationError], a [ValueError] (passlib) or a [DBAPIError]
    (SQLAlchemy). *)
Inductive exn : Type :=
| HTTPException (status_code : Z) (detail : string) (headers : list (string * string))
| ValidationError
| ValueError
| DBAPIError.

Inductive result (A : Type) : Type :=
| Return (a : A)
| Raise (e : exn).
Arguments Return {A} a.
Arguments Raise {A} e.

(** ** External collaborators *)

(** The three exceptions of python-jose that [jwt.decode] raises; each is a
    subclass of [JWTError]. *)
Inductive JWTError : Type :=
| JWSError
| ExpiredSignatureError
| JWTClaimsError.

(** python-jose.  A bearer token is an opaque [str]; [jwt_decode] also takes
    the clock reading at the time of the call. *)
Class Jose : Type := {
  token : Type;
  jwt_encode : gmap string pyval → string → string → token;
  jwt_decode : token → string → list string → Z → JWTError + gmap string pyval
}.

(** What is assumed of python-jose: a decoded payload has a [str] subject or
    none, and a token carrying a subject and an expiry decodes, under the key
    and algorithm that signed it, to the same subject until the expiry second
    has passed. *)
Class JoseLaws (J : Jose) : Prop := {
  jwt_decode_sub : ∀ t key algorithms now payload,
    jwt_decode t key algorithms now = inr payload →
    payload !! "sub" = None ∨ ∃ s, payload !! "sub" = Some (PStr s);
  jwt_decode_encode : ∀ (s : string) (expire : Z) key algorithm now,
    jwt_decode
      (jwt_encode (<["exp" := PDatetime expire]> {["sub" := PStr s]}) key algorithm)
      key [algorithm] now
    = if timegm expire <? timegm now then inl ExpiredSignatureError
      else inr (<["exp" := PInt (timegm expire)]> {["sub" := PStr s]})
}.

(** passlib's [CryptContext] with the bcrypt scheme.  Hashing draws a random
    salt, which is an argument here.  Both calls can raise a [ValueError]:
    a password the scheme refuses, a stored digest it cannot read. *)
Class Passlib : Type := {
  salt : Type;
  pwd_hash : salt → string → result string;
  pwd_verify : string → string → result bool
}.

(** What is assumed of passlib: a password that was hashed verifies against
    its hash, whatever salt was drawn. *)
Class PasslibLaws (P : Passlib) : Prop := {
  pwd_verify_hash : ∀ (s : salt) (password hashed : string),
    pwd_hash s password = Return hashed →
    pwd_verify password hashed = Return true
}.

(** A string holds the character U+0000. *)
Fixpoint has_nul (s : string) : bool :=
  match s with
  | EmptyString => false
  | String c rest => Ascii.eqb c Ascii.zero || has_nul rest
  end.

(** The PostgreSQL server behind its driver.  [binds_text s]: the string is
    accepted as a text parameter of a statement.  [fits_index s]: the value
    fits an entry of a btree index (the entry is limited in size, and the
    value may be compressed first).  Both are left to the server. *)
Class Postgres : Type := {
  binds_text : string → bool;
  fits_index : string → bool
}.

(** What is assumed of the server: a text that holds U+0000 is refused. *)
Class PostgresLaws (S : Postgres) : Prop := {
  binds_text_nul : ∀ s, has_nul s = true → binds_text s = false
}.

(** ** models/models.py *)

Module models.

Record User : Type := mkUser {
  User_id : Z;
  User_username : string;
  User_hashed_password : string;
  User_created_at : Z
}.

Record Task : Type := mkTask {
  Task_id : Z;
  Task_title : string;
  Task_description : string;
  Task_is_complete : bool;
  Task_owner_id : Z;
  Task_created_at : Z
}.

End models.

(** ** schemas.py *)

Module schemas.

Record UserCreate : Type := mkUserCreate {
  UserCreate_username : string;
  UserCreate_password : string
}.

Record TokenData : Type := mkTokenData { TokenData_username : option string }.

(** [TokenData(username=v)]: the field is [Optional[str]]. *)
Definition TokenData_init (v : pyval) : result TokenData :=
  match v with
  | PNone => Return (mkTokenData None)
  | PStr s => Return (mkTokenData (Some s))
  | _ => Raise ValidationError
  end.

Record TaskCreate : Type := mkTaskCreate {
  TaskCreate_title : string;
  TaskCreate_description : string;
  TaskCreate_is_complete : bool
}.

End schemas.

(** ** database/database.py: the store behind a session *)

Module database.

(** The two tables and the last value handed out by the sequence of each
    primary key.  The rows of a table are listed in the order in which a
    [SELECT] without [ORDER BY] returns them: a new row, and the new version
    of an updated row, comes after the rows already there. *)
Record AsyncSession : Type := mkSession {
  User_table : list models.User;
  Task_table : list models.Task;
  User_id_seq : Z;
  Task_id_seq : Z
}.

Definition empty : AsyncSession := mkSession [] [] 0 0.

(** The range of an [INTEGER] column; the driver refuses to bind a Python
    [int] outside it. *)
Definition int32 (z : Z) : bool := (-2147483648 <=? z) && (z <=? 2147483647).

Section statements.

Context {S : Postgres}.

(** [select(User).filter(User.username == username)] then
    [.scalars().first()]. *)
Definition first_User_by_username (db : AsyncSession) (username : string)
  : result (option models.User) :=
  if negb (binds_text username) then Raise DBAPIError
  else Return (List.find (λ u, String.eqb (models.User_username u) username)
                         (User_table db)).

(** [db.get(Task, task_id)]: lookup by primary key. *)
Definition get_Task (db : AsyncSession) (task_id : Z) : result (option models.Task) :=
  if int32 task_id
  then Return (List.find (λ t, models.Task_id t =? task_id) (Task_table db))
  else Raise DBAPIError.

(** [select(Task).filter(Task.owner_id == owner)] then [.scalars().all()];
    [owner] is the id of a row loaded from the store. *)
Definition all_Task_by_owner (db : AsyncSession) (owner : Z) : list models.Task :=
  List.filter (λ t, models.Task_owner_id t =? owner) (Task_table db).

(** [db.add(User(username=..., hashed_password=...))], [commit], [refresh]:
    the row gets the next id and the column default [created_at].  The
    [INSERT] fails when a text parameter cannot be bound, when the sequence
    is exhausted, or when the username does not fit its unique index or is
    in it already; in the last two cases the sequence value drawn for the
    row is lost.  A failed commit stores nothing. *)
Definition add_User (db : AsyncSession) (username hashed_password : string) (now : Z)
  : result models.User * AsyncSession :=
  let new_user := models.mkUser (User_id_seq db + 1) username hashed_password now in
  if negb (binds_text username && binds_text hashed_password)
  then (Raise DBAPIError, db)
  else if negb (int32 (User_id_seq db + 1)) then (Raise DBAPIError, db)
  else if negb (fits_index username)
          || existsb (λ u, String.eqb (models.User_username u) username) (User_table db)
  then
    (Raise DBAPIError,
     mkSession (User_table db) (Task_table db) (User_id_seq db + 1) (Task_id_seq db))
  else
    (Return new_user,
     mkSession (User_table db ++ [new_user]) (Task_table db)
               (User_id_seq db + 1) (Task_id_seq db)).

(** [db.add(Task(...))], [commit], [refresh]; [title] and [description]
    are both indexed, and neither index is unique. *)
Definition add_Task (db : AsyncSession) (title description : string)
    (is_complete : bool) (owner_id : Z) (now : Z)
  : result models.Task * AsyncSession :=
  let new_task :=
    models.mkTask (Task_id_seq db + 1) title description is_complete owner_id now in
  if negb (binds_text title && binds_text description)
  then (Raise DBAPIError, db)
  else if negb (int32 (Task_id_seq db + 1)) then (Raise DBAPIError, db)
  else if negb (fits_index title && fits_index description) then
    (Raise DBAPIError,
     mkSession (User_table db) (Task_table db) (User_id_seq db) (Task_id_seq db + 1))
  else
    (Return new_task,
     mkSession (User_table db) (Task_table db ++ [new_task])
               (User_id_seq db) (Task_id_seq db + 1)).

(** Assigning [title], [description], [is_complete] on a loaded row. *)
Definition set_fields (title description : string) (is_complete : bool)
    (t : models.Task) : models.Task :=
  models.mkTask (models.Task_id t) title description is_complete
    (models.Task_owner_id t) (models.Task_created_at t).

(** The table an [UPDATE Task SET ... WHERE id = ...] for the row [db_task]
    leaves behind: the new version of the row is written after the rows
    already there. *)
Definition rewritten (table : list models.Task) (db_task : models.Task)
    (title description : string) (is_complete : bool) : list models.Task :=
  List.filter (λ t, negb (models.Task_id t =? models.Task_id db_task)) table
  ++ List.map (set_fields title description is_complete)
       (List.filter (λ t, models.Task_id t =? models.Task_id db_task) table).

(** [commit] after such an assignment on the loaded row [db_task], then
    [refresh].  The unit of work writes only the columns whose value
    changed, and writes nothing when none did.  A changed text value must be
    accepted as a parameter and fit its index, or the commit fails. *)
Definition update_Task (db : AsyncSession) (db_task : models.Task)
    (title description : string) (is_complete : bool)
  : result models.Task * AsyncSession :=
  let title_changed := negb (String.eqb title (models.Task_title db_task)) in
  let description_changed :=
    negb (String.eqb description (models.Task_description db_task)) in
  let is_complete_changed :=
    negb (Bool.eqb is_complete (models.Task_is_complete db_task)) in
  if negb (title_changed || description_changed || is_complete_changed)
  then (Return (set_fields title description is_complete db_task), db)
  else if (title_changed && negb (binds_text title))
          || (description_changed && negb (binds_text description))
  then (Raise DBAPIError, db)
  else if (title_changed && negb (fits_index title))
          || (description_changed && negb (fits_index description))
  then (Raise DBAPIError, db)
  else
    (Return (set_fields title description is_complete db_task),
     mkSession (User_table db)
       (rewritten (Task_table db) db_task title description is_complete)
       (User_id_seq db) (Task_id_seq db)).

End statements.

(** [db.delete(task)], [commit]: [DELETE FROM Task WHERE id = ...]. *)
Definition delete_Task (db : AsyncSession) (task_id : Z) : AsyncSession :=
  mkSession (User_table db)
    (List.filter (λ t, negb (models.Task_id t =? task_id)) (Task_table db))
    (User_id_seq db) (Task_id_seq db).

(** The constraints the schema declares and the sequences maintain:
    primary keys and usernames are unique, and no row has an id beyond
    its sequence. *)
Record consistent (db : AsyncSession) : Prop := {
  User_pk : NoDup (List.map models.User_id (User_table db));
  User_username_unique : NoDup (List.map models.User_username (User_table db));
  Task_pk : NoDup (List.map models.Task_id (Task_table db));
  User_seq_bound : Forall (λ u, models.User_id u ≤ User_id_seq db) (User_table db);
  Task_seq_bound : Forall (λ t, models.Task_id t ≤ Task_id_seq db) (Task_table db)
}.

(** What the server checked when a row was written: every stored text is
    one it binds, and every indexed text fits its index. *)
Record accepted {S : Postgres} (db : AsyncSession) : Prop := {
  User_accepted :
    Forall (λ u, binds_text (models.User_username u) = true ∧
                 fits_index (models.User_username u) = true ∧
                 binds_text (models.User_hashed_password u) = true)
           (User_table db);
  Task_accepted :
    Forall (λ t, (binds_text (models.Task_title t) = true ∧
                  fits_index (models.Task_title t) = true) ∧
                 (binds_text (models.Task_description t) = true ∧
                  fits_index (models.Task_description t) = true))
           (Task_table db)
}.

End database.

(** ** The framework: JSON bodies, responses, dependencies *)

Section main.

Context {J : Jose} {P : Passlib} {S : Postgres}.

Abbreviation AsyncSession := database.AsyncSession.

(** A JSON body.  [JDatetime] stands for the ISO 8601 string of a timestamp,
    [JToken] for the string of a bearer token. *)
Inductive json : Type :=
| JNull
| JBool (b : bool)
| JInt (z : Z)
| JStr (s : string)
| JDatetime (us : Z)
| JToken (t : token)
| JArr (items : list json)
| JObj (fields : list (string * json)).

(** The field names of a JSON object. *)
Definition keys (j : json) : list string :=
  match j with
  | JObj fields => List.map fst fields
  | _ => []
  end.

(** [mentions k j]: some object inside [j], at any depth, has a field [k]. *)
Fixpoint mentions (k : string) (j : json) : bool :=
  match j with
  | JArr items => existsb (mentions k) items
  | JObj fields =>
      existsb (λ kv, match kv with (k', v) => String.eqb k' k || mentions k v end) fields
  | _ => false
  end.

Record Response : Type := mkResponse {
  status_code : Z;
  headers : list (string * string);
  content : option json
}.

(** A body mentions [k]; a response without a body mentions nothing. *)
Definition exposes (k : string) (r : Response) : bool :=
  match content r with
  | Some j => mentions k j
  | None => false
  end.

(** FastAPI's handler for a raised exception: an [HTTPException] becomes its
    status, headers and [{"detail": ...}]; anything else is a 500. *)
Definition exception_handler (e : exn) : Response :=
  match e with
  | HTTPException status detail hs => mkResponse status hs (Some (JObj [("detail", JStr detail)]))
  | _ => mkResponse 500 [] (Some (JStr "Internal Server Error"))
  end.

(** A route without [response_model] passes the returned object to
    [jsonable_encoder]; for an ORM row that is its loaded column attributes. *)
Definition jsonable_User (u : models.User) : json :=
  JObj [("id", JInt (models.User_id u));
        ("username", JStr (models.User_username u));
        ("hashed_password", JStr (models.User_hashed_password u));
        ("created_at", JDatetime (models.User_created_at u))].

Definition jsonable_Task (t : models.Task) : json :=
  JObj [("id", JInt (models.Task_id t));
        ("title", JStr (models.Task_title t));
        ("description", JStr (models.Task_description t));
        ("is_complete", JBool (models.Task_is_complete t));
        ("owner_id", JInt (models.Task_owner_id t));
        ("created_at", JDatetime (models.Task_created_at t))].

(** [response_model=TaskCreate]: the fields of the schema are read off the
    returned object, and nothing else is kept. *)
Definition response_model_TaskCreate (t : models.Task) : json :=
  JObj [("title", JStr (models.Task_title t));
        ("description", JStr (models.Task_description t));
        ("is_complete", JBool (models.Task_is_complete t))].

(** [response_model=Token], applied to the returned [dict]. *)
Definition response_model_Token (access_token : token) (token_type : string) : json :=
  JObj [("access_token", JToken access_token); ("token_type", JStr token_type)].

(** [OAuth2PasswordBearer(tokenUrl="token")]: the bearer credential of the
    [Authorization] header, or 401 when there is none. *)
Definition oauth2_scheme (authorization : option token) : result token :=
  match authorization with
  | Some t => Return t
  | None => Raise (HTTPException 401 "Not authenticated" [("WWW-Authenticate", "Bearer")])
  end.

(** ** main.py *)

Definition SECRET_KEY : string := "your-secret-key".
Definition ALGORITHM : string := "HS256".
Definition ACCESS_TOKEN_EXPIRE_MINUTES : Z := 30.

Definition verify_password (plain_password hashed_password : string) : result bool :=
  pwd_verify plain_password hashed_password.

Definition get_password_hash (s : salt) (password : string) : result string :=
  pwd_hash s password.

(** The [to_encode] dictionary of [create_access_token].  [if expires_delta:]
    is false for [None] and for a zero [timedelta]. *)
Definition to_encode (data : gmap string pyval) (expires_delta : option Z) (now : Z)
  : gmap string pyval :=
  let expire :=
    match expires_delta with
    | Some delta => if delta =? 0 then now + timedelta_minutes 15 else now + delta
    | None => now + timedelta_minutes 15
    end in
  <["exp" := PDatetime expire]> data.

Definition create_access_token (data : gmap string pyval) (expires_delta : option Z)
    (now : Z) : token :=
  jwt_encode (to_encode data expires_delta now) SECRET_KEY ALGORITHM.

Definition get_user (db : AsyncSession) (username : string)
  : result (option models.User) :=
  database.first_User_by_username db username.

(** Returns [False] ([None] here) or the user.  [not user or not verify(...)]
    does not verify the password of an unknown user. *)
Definition authenticate_user (db : AsyncSession) (username password : string)
  : result (option models.User) :=
  match get_user db username with
  | Raise e => Raise e
  | Return None => Return None
  | Return (Some user) =>
      match verify_password password (models.User_hashed_password user) with
      | Raise e => Raise e
      | Return true => Return (Some user)
      | Return false => Return None
      end
  end.

Definition credentials_exception : exn :=
  HTTPException 401 "Could not validate credentials" [("WWW-Authenticate", "Bearer")].

(** [payload.get("sub")]. *)
Definition payload_get (payload : gmap string pyval) (k : string) : pyval :=
  default PNone (payload !! k).

(** The first definition of [get_current_user] (lines 56-73), which goes
    through [TokenData].  Only a [JWTError] is caught: a [ValidationError]
    propagates, and so does whatever the query raises, which runs after the
    [try]. *)
Definition get_current_user_TokenData (db : AsyncSession) (tok : token) (now : Z)
  : result models.User :=
  match jwt_decode tok SECRET_KEY [ALGORITHM] now with
  | inl _ => Raise credentials_exception
  | inr payload =>
      match payload_get payload "sub" with
      | PNone => Raise credentials_exception
      | username =>
          match schemas.TokenData_init username with
          | Raise e => Raise e
          | Return token_data =>
              match schemas.TokenData_username token_data with
              | None => Raise credentials_exception
              | Some name =>
                  match get_user db name with
                  | Raise e => Raise e
                  | Return None => Raise credentials_exception
                  | Return (Some user) => Return user
                  end
              end
          end
      end
  end.

(** The second definition of [get_current_user] (lines 110-135), which
    queries directly, again after the [try].  A bind parameter that is not a
    [str] is refused by the driver. *)
Definition get_current_user (tok : token) (db : AsyncSession) (now : Z)
  : result models.User :=
  match jwt_decode tok SECRET_KEY [ALGORITHM] now with
  | inl _ => Raise credentials_exception
  | inr payload =>
      match payload_get payload "sub" with
      | PNone => Raise credentials_exception
      | PStr username =>
          match database.first_User_by_username db username with
          | Raise e => Raise e
          | Return None => Raise credentials_exception
          | Return (Some user) => Return user
          end
      | _ => Raise DBAPIError
      end
  end.

(** *** Routes.  A handler takes what FastAPI injects (the parsed body or
    path parameter, the session, the resolved user) and the clock, and yields
    its return value or the exception it raises, together with the store as
    the handler leaves it: a handler that raises has committed nothing. *)

(** [POST /register/] *)
Definition register (user : schemas.UserCreate) (db : AsyncSession) (s : salt) (now : Z)
  : result json * AsyncSession :=
  match get_user db (schemas.UserCreate_username user) with
  | Raise e => (Raise e, db)
  | Return (Some _) => (Raise (HTTPException 400 "Username already registered" []), db)
  | Return None =>
      match get_password_hash s (schemas.UserCreate_password user) with
      | Raise e => (Raise e, db)
      | Return hashed_password =>
          match database.add_User db (schemas.UserCreate_username user)
                  hashed_password now with
          | (Raise e, db') => (Raise e, db')
          | (Return _, db') =>
              (Return (JObj [("msg", JStr "User registered successfully")]), db')
          end
      end
  end.

(** [POST /token]: the returned [dict], as the pair of its two values. *)
Definition login_for_access_token (form_username form_password : string)
    (db : AsyncSession) (now : Z) : result (token * string) :=
  match authenticate_user db form_username form_password with
  | Raise e => Raise e
  | Return None =>
      Raise (HTTPException 401 "Incorrect username or password"
               [("WWW-Authenticate", "Bearer")])
  | Return (Some user) =>
      let access_token_expires := timedelta_minutes ACCESS_TOKEN_EXPIRE_MINUTES in
      let access_token :=
        create_access_token {["sub" := PStr (models.User_username user)]}
          (Some access_token_expires) now in
      Return (access_token, "bearer")
  end.

(** [GET /users/me/] *)
Definition read_users_me (current_user : models.User) : result models.User :=
  Return current_user.

(** [POST /tasks/] *)
Definition create_task (task : schemas.TaskCreate) (db : AsyncSession)
    (current_user : models.User) (now : Z) : result models.Task * AsyncSession :=
  database.add_Task db (schemas.TaskCreate_title task)
    (schemas.TaskCreate_description task) (schemas.TaskCreate_is_complete task)
    (models.User_id current_user) now.

(** [GET /tasks/] *)
Definition get_tasks (db : AsyncSession) (current_user : models.User)
  : result (list models.Task) :=
  Return (database.all_Task_by_owner db (models.User_id current_user)).

Definition task_not_found : exn := HTTPException 404 "Task not found" [].

(** [GET /tasks/{task_id}], first declaration (lines 164-173). *)
Definition get_task (task_id : Z) (db : AsyncSession) (current_user : models.User)
  : result models.Task :=
  match database.get_Task db task_id with
  | Raise e => Raise e
  | Return None => Raise task_not_found
  | Return (Some task) =>
      if negb (models.Task_owner_id task =? models.User_id current_user)
      then Raise task_not_found
      else Return task
  end.


(** [PUT /tasks/{task_id}] *)
Definition update_task (task_id : Z) (task : schemas.TaskCreate) (db : AsyncSession)
    (current_user : models.User) : result models.Task * AsyncSession :=
  match database.get_Task db task_id with
  | Raise e => (Raise e, db)
  | Return None => (Raise task_not_found, db)
  | Return (Some db_task) =>
      if negb (models.Task_owner_id db_task =? models.User_id current_user)
      then (Raise task_not_found, db)
      else
        database.update_Task db db_task (schemas.TaskCreate_title task)
          (schemas.TaskCreate_description task) (schemas.TaskCreate_is_complete task)
  end.

(** [DELETE /tasks/{task_id}] *)
Definition delete_task (task_id : Z) (db : AsyncSession) (current_user : models.User)
  : result json * AsyncSession :=
  match database.get_Task db task_id with
  | Raise e => (Raise e, db)
  | Return None => (Raise task_not_found, db)
  | Return (Some task) =>
      if negb (models.Task_owner_id task =? models.User_id current_user)
      then (Raise task_not_found, db)
      else (Return (JObj [("detail", JStr "Task deleted")]),
            database.delete_Task db (models.Task_id task))
  end.

(** *** The application: a request, its dependencies, its route, its
    response. *)

(** The routes that depend on [get_current_user]. *)
Inductive Route : Type :=
| GET_users_me
| POST_tasks (task : schemas.TaskCreate)
| GET_tasks
| GET_task (task_id : Z)
| PUT_task (task_id : Z) (task : schemas.TaskCreate)
| DELETE_task (task_id : Z).

(** A request: one of the two open routes, or a route behind the bearer
    scheme together with the credential of its [Authorization] header. *)
Inductive Request : Type :=
| POST_register (user : schemas.UserCreate)
| POST_token (form_username form_password : string)
| Bearer (authorization : option token) (route : Route).

(** The response for a return value: the route's status code and the
    serialised value; an exception goes to the exception handler. *)
Definition respond {A : Type} (status : Z) (serialize : A → option json)
    (r : result A) : Response :=
  match r with
  | Return a => mkResponse status [] (serialize a)
  | Raise e => exception_handler e
  end.

(** [Depends(get_current_user)], bound when the route is declared:
    [read_users_me] is declared before the second [def get_current_user] and
    keeps the first; the task routes are declared after it. *)
Definition Depends_get_current_user (route : Route) (db : AsyncSession)
    (tok : token) (now : Z) : result models.User :=
  match route with
  | GET_users_me => get_current_user_TokenData db tok now
  | _ => get_current_user tok db now
  end.

(** The endpoint-specific part of a route, given the resolved user.  The
    router serves a path from the first route declared for it. *)
Definition endpoint (route : Route) (current_user : models.User) (db : AsyncSession)
    (now : Z) : Response * AsyncSession :=
  match route with
  | GET_users_me =>
      (respond 200 (λ u, Some (jsonable_User u)) (read_users_me current_user), db)
  | POST_tasks task =>
      let '(r, db') := create_task task db current_user now in
      (respond 201 (λ t, Some (jsonable_Task t)) r, db')
  | GET_tasks =>
      (respond 200 (λ ts, Some (JArr (List.map response_model_TaskCreate ts)))
         (get_tasks db current_user), db)
  | GET_task task_id =>
      (respond 200 (λ t, Some (response_model_TaskCreate t))
         (get_task task_id db current_user), db)
  | PUT_task task_id task =>
      let '(r, db') := update_task task_id task db current_user in
      (respond 200 (λ t, Some (response_model_TaskCreate t)) r, db')
  | DELETE_task task_id =>
      let '(r, db') := delete_task task_id db current_user in
      (respond 204 (λ _, None) r, db')
  end.

(** One request against the store: the response and the store afterwards.
    [s] is the salt bcrypt draws, [now] the clock. *)
Definition app (req : Request) (db : AsyncSession) (s : salt) (now : Z)
  : Response * AsyncSession :=
  match req with
  | POST_register user =>
      let '(r, db') := register user db s now in
      (respond 200 Some r, db')
  | POST_token form_username form_password =>
      (respond 200 (λ d, Some (response_model_Token (fst d) (snd d)))
         (login_for_access_token form_username form_password db now), db)
  | Bearer authorization route =>
      match oauth2_scheme authorization with
      | Raise e => (exception_handler e, db)
      | Return tok =>
          match Depends_get_current_user route db tok now with
          | Raise e => (exception_handler e, db)
          | Return current_user => endpoint route current_user db now
          end
      end
  end.

End main.


(** ** A symbolic instance of the collaborators

    Signing is ideal: a token is either a payload signed under a key and an
    algorithm, or a string that is no token at all.  Hashing keeps the salt
    in front of the password and refuses a password that holds U+0000.  The
    server binds every text without U+0000 and indexes a text of up to 2000
    characters.  The instance shows that the assumed laws can be met and
    gives concrete requests to run. *)

Module symbolic.

Inductive sym_token : Type :=
| Signed (claims : gmap string pyval) (key algorithm : string)
| Malformed (raw : string).

(** [jwt.encode]: a [datetime] expiry is written as whole seconds. *)
Definition encode (claims : gmap string pyval) (key algorithm : string) : sym_token :=
  match claims !! "exp" with
  | Some (PDatetime expire) => Signed (<["exp" := PInt (timegm expire)]> claims) key algorithm
  | _ => Signed claims key algorithm
  end.

Definition validate_sub (claims : gmap string pyval) : JWTError + gmap string pyval :=
  match claims !! "sub" with
  | None | Some (PStr _) => inr claims
  | Some _ => inl JWTClaimsError
  end.

(** [jwt.decode]: the signature, then the expiry, then the subject. *)
Definition decode (t : sym_token) (key : string) (algorithms : list string) (now : Z)
  : JWTError + gmap string pyval :=
  match t with
  | Malformed _ => inl JWSError
  | Signed claims key' algorithm =>
      if String.eqb key' key && existsb (String.eqb algorithm) algorithms then
        match claims !! "exp" with
        | None => validate_sub claims
        | Some (PInt expire) =>
            if expire <? timegm now then inl ExpiredSignatureError
            else validate_sub claims
        | Some _ => inl JWTClaimsError
        end
      else inl JWSError
  end.

Definition jose : Jose :=
  {| token := sym_token; jwt_encode := encode; jwt_decode := decode |}.

Definition hash (s : string) (password : string) : result string :=
  if has_nul password then Raise ValueError
  else Return (String.append s (String.append "$" password)).

Definition verify (password hashed : string) : result bool :=
  let suffix := String.append "$" password in
  if has_nul password then Raise ValueError
  else Return
         (String.eqb
            (String.substring (String.length hashed - String.length suffix)%nat
                              (String.length suffix) hashed)
            suffix).

Definition passlib : Passlib :=
  {| salt := string; pwd_hash := hash; pwd_verify := verify |}.

Definition postgres : Postgres :=
  {| binds_text := λ s, negb (has_nul s);
     fits_index := λ s, Nat.leb (String.length s) 2000 |}.

(** A small store: two users, one task each. *)
Definition alice : models.User := models.mkUser 1 "alice" "s1$pw1" 0.
Definition bob : models.User := models.mkUser 2 "bob" "s2$pw2" 0.
Definition groceries : models.Task := models.mkTask 1 "groceries" "milk" false 1 0.
Definition laundry : models.Task := models.mkTask 2 "laundry" "whites" false 2 0.

Definition store : database.AsyncSession :=
  database.mkSession [alice; bob] [groceries; laundry] 2 2.

(** Alice's token: issued by [POST /token] at time 0. *)
Definition alice_token : @token jose :=
  @create_access_token jose {["sub" := PStr "alice"]}
    (Some (timedelta_minutes ACCESS_TOKEN_EXPIRE_MINUTES)) 0.


(** A name that holds the character U+0000, and a token for it minted with
    the [SECRET_KEY] of the source. *)
Definition nul_name : string := String.append "a" (String Ascii.zero "b").

Definition forged_token : @token jose :=
  @create_access_token jose {["sub" := PStr nul_name]}
    (Some (timedelta_minutes ACCESS_TOKEN_EXPIRE_MINUTES)) 0.

(** One minute later. *)
Definition later : Z := 60 * 1000000.

End symbolic.

(** * Properties *)

(** ** The store *)

Section store_lemmas.

Context {S : Postgres}.

Implicit Types (db : database.AsyncSession) (t : models.Task) (task_id : Z).

Lemma find_app_split {A : Type} (p : A → bool) (l k : list A) :
  List.find p (l ++ k)
  = match List.find p l with Some x => Some x | None => List.find p k end.
Proof. induction l as [|x l IH]; simpl; [done|]. by destruct (p x). Qed.

Lemma get_Task_int32 db task_id (r : option models.Task) :
  database.get_Task db task_id = Return r → database.int32 task_id = true.
Proof. unfold database.get_Task. by destruct (database.int32 task_id). Qed.

Lemma get_Task_cases db task_id :
  database.get_Task db task_id = Raise DBAPIError ∨
  ∃ r, database.get_Task db task_id = Return r.
Proof. unfold database.get_Task. destruct (database.int32 task_id); eauto. Qed.

Lemma get_Task_find db task_id (r : option models.Task) :
  database.get_Task db task_id = Return r →
  List.find (λ t, models.Task_id t =? task_id) (database.Task_table db) = r.
Proof.
  unfold database.get_Task. destruct (database.int32 task_id); [|done].
  by intros [= ->].
Qed.

Lemma get_Task_id db task_id t :
  database.get_Task db task_id = Return (Some t) → models.Task_id t = task_id.
Proof.
  intros Hget. apply get_Task_find, find_some in Hget as [_ Heq]. by apply Z.eqb_eq.
Qed.

Lemma get_Task_In db task_id t :
  database.get_Task db task_id = Return (Some t) → In t (database.Task_table db).
Proof. intros Hget. by apply get_Task_find, find_some in Hget as [? _]. Qed.

(** A deleted primary key is no longer found. *)
Lemma get_Task_delete_eq db task_id :
  database.int32 task_id = true →
  database.get_Task (database.delete_Task db task_id) task_id = Return None.
Proof.
  intros Hrange. unfold database.get_Task, database.delete_Task. rewrite Hrange.
  simpl. f_equal.
  induction (database.Task_table db) as [|t l IH]; simpl; [done|].
  destruct (models.Task_id t =? task_id) eqn:E; simpl; [done|].
  by rewrite E.
Qed.

(** Deleting one primary key leaves the lookup of every other one alone. *)
Lemma get_Task_delete_ne db task_id other :
  other ≠ task_id →
  database.get_Task (database.delete_Task db task_id) other = database.get_Task db other.
Proof.
  intros Hne. unfold database.get_Task, database.delete_Task.
  destruct (database.int32 other); [|done]. simpl. f_equal.
  induction (database.Task_table db) as [|t l IH]; simpl; [done|].
  destruct (models.Task_id t =? task_id) eqn:E; simpl.
  - apply Z.eqb_eq in E.
    destruct (models.Task_id t =? other) eqn:E'; [|done].
    apply Z.eqb_eq in E'. congruence.
  - by destruct (models.Task_id t =? other).
Qed.

(** Under a unique primary key, the row found by its key is the only row
    with that key. *)
Lemma filter_split_unique (l : list models.Task) task_id t :
  NoDup (List.map models.Task_id l) →
  List.find (λ r, models.Task_id r =? task_id) l = Some t →
  ∃ before after,
    l = before ++ t :: after ∧
    List.filter (λ r, negb (models.Task_id r =? task_id)) l = before ++ after ∧
    List.filter (λ r, models.Task_id r =? task_id) l = [t].
Proof.
  induction l as [|r l IH]; simpl; [done|].
  intros Hnd Hfind. apply NoDup_cons in Hnd as [Hnotin Hnd].
  destruct (models.Task_id r =? task_id) eqn:E; simpl.
  - injection Hfind as ->. exists [], l. split; [done|]. simpl.
    apply Z.eqb_eq in E. clear IH Hnd.
    assert (Hrest : List.filter (λ r, negb (models.Task_id r =? task_id)) l = l ∧
                    List.filter (λ r, models.Task_id r =? task_id) l = []).
    { induction l as [|r' l IH]; simpl; [done|].
      apply not_elem_of_cons in Hnotin as [Hne Hnotin].
      destruct (models.Task_id r' =? task_id) eqn:E'; simpl.
      - apply Z.eqb_eq in E'. congruence.
      - destruct (IH Hnotin) as [-> ->]. done. }
    destruct Hrest as [-> ->]. done.
  - destruct (IH Hnd Hfind) as (before & after & -> & Hneg & Hpos).
    exists (r :: before), after. split; [done|]. simpl. by rewrite Hneg, Hpos.
Qed.

(** The rows with a key and the rows without it make up the table. *)
Lemma filter_partition {A : Type} (p : A → bool) (l : list A) :
  List.filter (λ x, negb (p x)) l ++ List.filter p l ≡ₚ l.
Proof.
  induction l as [|x l IH]; simpl; [done|].
  destruct (p x); simpl.
  - by rewrite <- Permutation_middle, IH.
  - by rewrite IH.
Qed.

(** The first row a lookup finds is the first row a filter keeps. *)
Lemma find_filter_head {A : Type} (p : A → bool) (l : list A) (x : A) :
  List.find p l = Some x → ∃ rest, List.filter p l = x :: rest.
Proof.
  induction l as [|y l IH]; simpl; [done|].
  destruct (p y) eqn:E.
  - intros [= ->]. by eexists.
  - exact IH.
Qed.

Lemma find_filter_none {A : Type} (p : A → bool) (l : list A) :
  List.find p (List.filter (λ x, negb (p x)) l) = None.
Proof.
  induction l as [|y l IH]; simpl; [done|].
  destruct (p y) eqn:E; simpl; [done|]. by rewrite E.
Qed.

(** Assigning to a row the values it has writes nothing. *)
Lemma set_fields_same t title description is_complete :
  String.eqb title (models.Task_title t) = true →
  String.eqb description (models.Task_description t) = true →
  Bool.eqb is_complete (models.Task_is_complete t) = true →
  database.set_fields title description is_complete t = t.
Proof.
  intros Ht Hd Hc. apply String.eqb_eq in Ht, Hd. apply Bool.eqb_prop in Hc.
  subst. by destruct t.
Qed.

(** The three outcomes of an update: the commit fails and nothing is
    written; nothing was changed and nothing is written; the row is
    rewritten. *)
Lemma update_Task_cases db (db_task : models.Task) title description is_complete :
  let assigned := database.set_fields title description is_complete db_task in
  database.update_Task db db_task title description is_complete
  = (Raise DBAPIError, db) ∨
  (database.update_Task db db_task title description is_complete = (Return assigned, db) ∧
   assigned = db_task) ∨
  database.update_Task db db_task title description is_complete
  = (Return assigned,
     database.mkSession (database.User_table db)
       (database.rewritten (database.Task_table db) db_task title description is_complete)
       (database.User_id_seq db) (database.Task_id_seq db)).
Proof.
  unfold database.update_Task, database.rewritten. cbv zeta.
  destruct (String.eqb title (models.Task_title db_task)) eqn:Ht;
    destruct (String.eqb description (models.Task_description db_task)) eqn:Hd;
    destruct (Bool.eqb is_complete (models.Task_is_complete db_task)) eqn:Hc;
    simpl;
    try (right; left; split; [done | by apply set_fields_same]);
    repeat match goal with
           | |- context [if ?b then _ else _] => destruct b; simpl
           end;
    auto.
Qed.

(** An update whose changed text values the server accepts succeeds. *)
Lemma update_Task_accepted db (db_task : models.Task) title description is_complete :
  (title = models.Task_title db_task ∨
   binds_text title = true ∧ fits_index title = true) →
  (description = models.Task_description db_task ∨
   binds_text description = true ∧ fits_index description = true) →
  database.update_Task db db_task title description is_complete
  ≠ (Raise DBAPIError, db).
Proof.
  intros Ht Hd. unfold database.update_Task. cbv zeta.
  assert (Ht' : String.eqb title (models.Task_title db_task) = true ∨
                binds_text title = true ∧ fits_index title = true).
  { destruct Ht as [-> | ?]; [left; apply String.eqb_refl | by right]. }
  assert (Hd' : String.eqb description (models.Task_description db_task) = true ∨
                binds_text description = true ∧ fits_index description = true).
  { destruct Hd as [-> | ?]; [left; apply String.eqb_refl | by right]. }
  clear Ht Hd.
  destruct Ht' as [-> | [-> ->]], Hd' as [-> | [-> ->]]; simpl;
    rewrite ?andb_false_r; simpl;
    repeat match goal with
           | |- context [if ?b then _ else _] => destruct b; simpl
           end;
    done.
Qed.

(** Re-reading a rewritten row by its key gives the row as assigned. *)
Lemma find_rewritten_eq (table : list models.Task) t title description is_complete :
  List.find (λ r, models.Task_id r =? models.Task_id t) table = Some t →
  List.find (λ r, models.Task_id r =? models.Task_id t)
    (database.rewritten table t title description is_complete)
  = Some (database.set_fields title description is_complete t).
Proof.
  intros Hfind. unfold database.rewritten.
  rewrite find_app_split, find_filter_none.
  destruct (find_filter_head _ _ _ Hfind) as [rest ->]. simpl.
  by rewrite Z.eqb_refl.
Qed.

Lemma find_rewritten_ne (table : list models.Task) t other title description is_complete :
  other ≠ models.Task_id t →
  List.find (λ r, models.Task_id r =? other)
    (database.rewritten table t title description is_complete)
  = List.find (λ r, models.Task_id r =? other) table.
Proof.
  intros Hne. unfold database.rewritten. rewrite find_app_split.
  induction table as [|r l IH]; simpl; [done|].
  destruct (models.Task_id r =? models.Task_id t) eqn:E; simpl.
  - apply Z.eqb_eq in E. rewrite E.
    destruct (models.Task_id t =? other) eqn:E'; [apply Z.eqb_eq in E'; congruence|].
    rewrite <- IH.
    by destruct (List.find _ (List.filter _ l)).
  - destruct (models.Task_id r =? other); [done | exact IH].
Qed.

End store_lemmas.

(** ** Ownership of tasks *)

(** C2, as the code has it.  For every caller and every task id in the range
    of the [INTEGER] key, [GET], [PUT] and [DELETE] of [/tasks/{id}] fetch
    the task by id and compare its owner with the caller: when the task is
    absent, or is owned by someone else, each of them fails with 404 "Task
    not found", the store is untouched, and the response is the same one in
    both cases. *)
Theorem foreign_or_absent_task_is_not_found {J : Jose} {S : Postgres}
    (db : database.AsyncSession) (caller : models.User) (task_id : Z)
    (body : schemas.TaskCreate) (now : Z) :
  database.int32 task_id = true →
  (database.get_Task db task_id = Return None ∨
   ∃ task, database.get_Task db task_id = Return (Some task) ∧
           models.Task_owner_id task ≠ models.User_id caller) →
  let not_found :=
    mkResponse 404 [] (Some (JObj [("detail", JStr "Task not found")])) in
  get_task task_id db caller = Raise (HTTPException 404 "Task not found" []) ∧
  update_task task_id body db caller
    = (Raise (HTTPException 404 "Task not found" []), db) ∧
  delete_task task_id db caller
    = (Raise (HTTPException 404 "Task not found" []), db) ∧
  endpoint (GET_task task_id) caller db now = (not_found, db) ∧
  endpoint (PUT_task task_id body) caller db now = (not_found, db) ∧
  endpoint (DELETE_task task_id) caller db now = (not_found, db).
Proof.
  intros _ Hcase. simpl.
  unfold get_task, update_task, delete_task.
  destruct Hcase as [-> | (task & -> & Hforeign)].
  - by repeat split.
  - apply Z.eqb_neq in Hforeign. rewrite Hforeign. simpl. by repeat split.
Qed.

Lemma foreign_or_absent_task_is_not_found_witness :
  (database.int32 2 = true ∧ database.int32 7 = true) ∧
  (database.get_Task symbolic.store 2 = Return (Some symbolic.laundry) ∧
   models.Task_owner_id symbolic.laundry ≠ models.User_id symbolic.alice) ∧
  database.get_Task symbolic.store 7 = Return None ∧
  @endpoint symbolic.jose symbolic.postgres (GET_task 2) symbolic.alice symbolic.store 0
  = @endpoint symbolic.jose symbolic.postgres (GET_task 7) symbolic.alice
      symbolic.store 0.
Proof.
  assert (Hforeign : database.get_Task symbolic.store 2 = Return (Some symbolic.laundry) ∧
            models.Task_owner_id symbolic.laundry ≠ models.User_id symbolic.alice)
    by (split; [reflexivity | simpl; lia]).
  assert (Habsent : database.get_Task symbolic.store 7 = Return None) by reflexivity.
  split; [split; reflexivity|].
  split; [exact Hforeign | split; [exact Habsent |]].
  pose proof (@foreign_or_absent_task_is_not_found symbolic.jose symbolic.postgres
                symbolic.store symbolic.alice 2 (schemas.mkTaskCreate "t" "d" false) 0
                eq_refl (or_intror (ex_intro _ symbolic.laundry Hforeign)))
    as (_ & _ & _ & Hget2 & _).
  pose proof (@foreign_or_absent_task_is_not_found symbolic.jose symbolic.postgres
                symbolic.store symbolic.alice 7 (schemas.mkTaskCreate "t" "d" false) 0
                eq_refl (or_introl Habsent))
    as (_ & _ & _ & Hget7 & _).
  exact (eq_trans Hget2 (eq_sym Hget7)).
Defined.

(** C2, as stated: for every task id, an absent task would give 404.  No
    stored task has the id 2147483648, one beyond the [INTEGER] range, and
    the three routes answer it with 500: the lookup itself fails. *)
Lemma task_id_beyond_integer_is_internal_error :
  Forall (λ t, models.Task_id t ≠ 2147483648) (database.Task_table symbolic.store) ∧
  @endpoint symbolic.jose symbolic.postgres (GET_task 2147483648) symbolic.alice
    symbolic.store 0
  = (mkResponse 500 [] (Some (JStr "Internal Server Error")), symbolic.store) ∧
  @endpoint symbolic.jose symbolic.postgres
    (PUT_task 2147483648 (schemas.mkTaskCreate "t" "d" false)) symbolic.alice
    symbolic.store 0
  = (mkResponse 500 [] (Some (JStr "Internal Server Error")), symbolic.store) ∧
  @endpoint symbolic.jose symbolic.postgres (DELETE_task 2147483648) symbolic.alice
    symbolic.store 0
  = (mkResponse 500 [] (Some (JStr "Internal Server Error")), symbolic.store).
Proof.
  split; [repeat constructor; simpl; lia|]. repeat split; reflexivity.
Qed.

(** C7, as the code has it.  For every caller, every task the caller owns
    and every body whose [title] and [description] are each either the
    stored value or a text the server accepts as a parameter and as an index
    entry, [PUT /tasks/{id}] returns the task with [title], [description]
    and [is_complete] taken from the body and [id], [owner_id] and
    [created_at] as they were; in the store that row stands for the old one,
    and every other task row, every user row and both sequences are as
    before. *)
Theorem update_task_frame {S : Postgres}
    (db : database.AsyncSession) (caller : models.User) (task_id : Z)
    (body : schemas.TaskCreate) (task : models.Task) :
  NoDup (List.map models.Task_id (database.Task_table db)) →
  database.get_Task db task_id = Return (Some task) →
  models.Task_owner_id task = models.User_id caller →
  (schemas.TaskCreate_title body = models.Task_title task ∨
   binds_text (schemas.TaskCreate_title body) = true ∧
   fits_index (schemas.TaskCreate_title body) = true) →
  (schemas.TaskCreate_description body = models.Task_description task ∨
   binds_text (schemas.TaskCreate_description body) = true ∧
   fits_index (schemas.TaskCreate_description body) = true) →
  let updated :=
    models.mkTask (models.Task_id task)
      (schemas.TaskCreate_title body) (schemas.TaskCreate_description body)
      (schemas.TaskCreate_is_complete body)
      (models.Task_owner_id task) (models.Task_created_at task) in
  ∃ before after table,
    database.Task_table db = before ++ task :: after ∧
    table ≡ₚ before ++ updated :: after ∧
    update_task task_id body db caller
    = (Return updated,
       database.mkSession (database.User_table db) table
         (database.User_id_seq db) (database.Task_id_seq db)).
Proof.
  intros Hpk Hget Howner Htitle Hdescription. cbv zeta.
  pose proof (get_Task_id _ _ _ Hget) as Hid.
  pose proof (get_Task_find _ _ _ Hget) as Hfind. rewrite <- Hid in Hfind.
  destruct (filter_split_unique _ _ _ Hpk Hfind)
    as (before & after & Htable & Hneg & Hpos).
  unfold update_task. rewrite Hget.
  apply Z.eqb_eq in Howner. rewrite Howner. simpl.
  pose proof (update_Task_accepted db task _ _ (schemas.TaskCreate_is_complete body)
                Htitle Hdescription) as Hok.
  destruct (update_Task_cases db task (schemas.TaskCreate_title body)
              (schemas.TaskCreate_description body) (schemas.TaskCreate_is_complete body))
    as [Hfail | [[Hsame Heq] | Hwritten]]; [done| |].
  - exists before, after, (database.Task_table db).
    split; [exact Htable|]. split.
    + unfold database.set_fields in Heq. rewrite Heq. by rewrite Htable.
    + rewrite Hsame. by destruct db.
  - exists before, after,
      (database.rewritten (database.Task_table db) task (schemas.TaskCreate_title body)
         (schemas.TaskCreate_description body) (schemas.TaskCreate_is_complete body)).
    split; [exact Htable|]. split; [|exact Hwritten].
    unfold database.rewritten. rewrite Hneg, Hpos. simpl.
    rewrite <- Permutation_middle, app_nil_r. apply Permutation_middle.
Qed.

Lemma update_task_frame_witness :
  NoDup (List.map models.Task_id (database.Task_table symbolic.store)) ∧
  ∃ before after table,
    database.Task_table symbolic.store = before ++ symbolic.groceries :: after ∧
    table ≡ₚ before ++ models.mkTask 1 "shopping" "bread" true 1 0 :: after ∧
    @update_task symbolic.postgres 1 (schemas.mkTaskCreate "shopping" "bread" true)
      symbolic.store symbolic.alice
    = (Return (models.mkTask 1 "shopping" "bread" true 1 0),
       database.mkSession [symbolic.alice; symbolic.bob] table 2 2).
Proof.
  assert (Hpk : NoDup (List.map models.Task_id (database.Task_table symbolic.store))).
  { simpl. apply NoDup_cons. split; [|apply NoDup_singleton].
    intros Hin. apply list_elem_of_singleton in Hin. lia. }
  split; [exact Hpk|].
  exact (@update_task_frame symbolic.postgres symbolic.store symbolic.alice 1
           (schemas.mkTaskCreate "shopping" "bread" true) symbolic.groceries
           Hpk eq_refl eq_refl
           (or_intror (conj eq_refl eq_refl)) (or_intror (conj eq_refl eq_refl))).
Defined.

(** C7, as stated: for every task the caller owns, [PUT] would replace the
    title with the value of the body.  Alice owns task 1; her [PUT] with a
    title that holds U+0000 is answered with 500, and the task keeps its
    title. *)
Lemma update_task_refuses_nul_title :
  database.get_Task symbolic.store 1 = Return (Some symbolic.groceries) ∧
  models.Task_owner_id symbolic.groceries = models.User_id symbolic.alice ∧
  @app symbolic.jose symbolic.passlib symbolic.postgres
    (Bearer (Some symbolic.alice_token)
       (PUT_task 1 (schemas.mkTaskCreate symbolic.nul_name "milk" false)))
    symbolic.store "s3" symbolic.later
  = (mkResponse 500 [] (Some (JStr "Internal Server Error")), symbolic.store).
Proof. repeat split; reflexivity. Qed.

(** C8. For every task the caller owns, the first [DELETE /tasks/{id}]
    answers 204 and removes the task from the store, leaving every other
    task and every user as they were; the second answers 404 and leaves the
    store exactly as the first one left it. *)
Theorem delete_task_twice {J : Jose} {S : Postgres}
    (db : database.AsyncSession) (caller : models.User) (task_id : Z)
    (task : models.Task) (now now' : Z) :
  database.get_Task db task_id = Return (Some task) →
  models.Task_owner_id task = models.User_id caller →
  let db1 := database.delete_Task db task_id in
  endpoint (DELETE_task task_id) caller db now = (mkResponse 204 [] None, db1) ∧
  database.get_Task db1 task_id = Return None ∧
  ¬ In task (database.Task_table db1) ∧
  (∀ other, other ≠ task_id →
     database.get_Task db1 other = database.get_Task db other) ∧
  database.User_table db1 = database.User_table db ∧
  endpoint (DELETE_task task_id) caller db1 now'
  = (mkResponse 404 [] (Some (JObj [("detail", JStr "Task not found")])), db1).
Proof.
  intros Hget Howner. simpl.
  pose proof (get_Task_id _ _ _ Hget) as Hid.
  pose proof (get_Task_int32 _ _ _ Hget) as Hrange.
  repeat split.
  - unfold delete_task. rewrite Hget.
    apply Z.eqb_eq in Howner. rewrite Howner. simpl. by rewrite Hid.
  - by apply get_Task_delete_eq.
  - unfold database.delete_Task. simpl. intros Hin.
    apply filter_In in Hin as [_ Hne].
    apply negb_true_iff, Z.eqb_neq in Hne. done.
  - intros other Hne. by apply get_Task_delete_ne.
  - unfold delete_task. by rewrite get_Task_delete_eq.
Qed.

Lemma delete_task_twice_witness :
  @endpoint symbolic.jose symbolic.postgres (DELETE_task 1) symbolic.alice
    symbolic.store 0
  = (mkResponse 204 [] None,
     database.mkSession [symbolic.alice; symbolic.bob] [symbolic.laundry] 2 2) ∧
  @endpoint symbolic.jose symbolic.postgres (DELETE_task 1) symbolic.alice
    (database.mkSession [symbolic.alice; symbolic.bob] [symbolic.laundry] 2 2) 1
  = (mkResponse 404 [] (Some (JObj [("detail", JStr "Task not found")])),
     database.mkSession [symbolic.alice; symbolic.bob] [symbolic.laundry] 2 2).
Proof.
  pose proof (@delete_task_twice symbolic.jose symbolic.postgres symbolic.store
                symbolic.alice 1 symbolic.groceries 0 1 eq_refl eq_refl)
    as (Hfirst & _ & _ & _ & _ & Hsecond).
  split; [exact Hfirst | exact Hsecond].
Defined.

(** ** The collaborators' laws hold of the symbolic instance *)

Lemma symbolic_jose_laws : JoseLaws symbolic.jose.
Proof.
  split.
  - intros t key algorithms now payload. simpl. unfold symbolic.decode.
    destruct t as [claims key' algorithm|raw]; [|done].
    destruct (String.eqb key' key && existsb (String.eqb algorithm) algorithms); [|done].
    assert (Hsub : symbolic.validate_sub claims = inr payload →
              payload !! "sub" = None ∨ ∃ s, payload !! "sub" = Some (PStr s)).
    { unfold symbolic.validate_sub.
      destruct (claims !! "sub") as [[]|] eqn:E; intros [= <-]; eauto. }
    destruct (claims !! "exp") as [[| |expire|]|]; try done.
    by destruct (expire <? timegm now).
  - intros s expire key algorithm now. simpl.
    unfold symbolic.encode, symbolic.decode.
    rewrite lookup_insert_eq, insert_insert_eq.
    rewrite String.eqb_refl. simpl. rewrite String.eqb_refl. simpl.
    rewrite lookup_insert_eq.
    destruct (timegm expire <? timegm now); [done|].
    unfold symbolic.validate_sub.
    rewrite lookup_insert_ne by done. by rewrite lookup_singleton_eq.
Qed.

Lemma substring_all (t : string) : String.substring 0 (String.length t) t = t.
Proof. induction t as [|a t IH]; simpl; [done|]. by rewrite IH. Qed.

Lemma substring_append (s t : string) :
  String.substring (String.length s) (String.length t) (String.append s t) = t.
Proof. induction s as [|a s IH]; simpl; [apply substring_all | exact IH]. Qed.

Lemma length_append (s t : string) :
  String.length (String.append s t) = (String.length s + String.length t)%nat.
Proof. induction s as [|a s IH]; simpl; [done|]. by rewrite IH. Qed.

Lemma symbolic_passlib_laws : PasslibLaws symbolic.passlib.
Proof.
  split. intros s password hashed. simpl. unfold symbolic.verify, symbolic.hash.
  destruct (has_nul password); [done|]. intros [= <-]. f_equal.
  rewrite length_append.
  replace (String.length s + String.length (String.append "$" password)
           - String.length (String.append "$" password))%nat
    with (String.length s) by lia.
  rewrite substring_append. apply String.eqb_refl.
Qed.

Lemma symbolic_postgres_laws : PostgresLaws symbolic.postgres.
Proof. split. intros s Hnul. simpl. by rewrite Hnul. Qed.

(** ** Authentication *)

Section authentication.

Context {J : Jose} {P : Passlib} {S : Postgres}.

(** The lookup of a user fails exactly for a name the server does not
    accept as a parameter. *)
Lemma get_user_cases (db : database.AsyncSession) (username : string) :
  (binds_text username = false ∧ get_user db username = Raise DBAPIError) ∨
  (binds_text username = true ∧ ∃ r, get_user db username = Return r).
Proof.
  unfold get_user, database.first_User_by_username.
  destruct (binds_text username); simpl; [right | left]; eauto.
Qed.

(** Under the laws of python-jose the two definitions of [get_current_user]
    come to the same thing on every route. *)
Lemma Depends_get_current_user_eq {L : JoseLaws J}
    (route : Route) (db : database.AsyncSession) (tok : token) (now : Z) :
  Depends_get_current_user route db tok now
  = match jwt_decode tok SECRET_KEY [ALGORITHM] now with
    | inl _ => Raise credentials_exception
    | inr payload =>
        match payload !! "sub" with
        | Some (PStr username) =>
            match get_user db username with
            | Return (Some user) => Return user
            | Return None => Raise credentials_exception
            | Raise e => Raise e
            end
        | _ => Raise credentials_exception
        end
    end.
Proof.
  unfold Depends_get_current_user, get_current_user_TokenData, get_current_user,
    payload_get, get_user.
  destruct (jwt_decode tok SECRET_KEY [ALGORITHM] now) as [e|payload] eqn:Hdec;
    [by destruct route|].
  destruct (jwt_decode_sub _ _ _ _ _ Hdec) as [-> | [username ->]]; simpl.
  - by destruct route.
  - destruct route; simpl;
      by destruct (database.first_User_by_username db username) as [[?|]|?].
Qed.

(** A request behind the bearer scheme runs its route with the resolved
    user, or answers with what resolving raised. *)
Lemma app_Bearer (route : Route) (tok : token) (db : database.AsyncSession)
    (s : salt) (now : Z) :
  app (Bearer (Some tok) route) db s now
  = match Depends_get_current_user route db tok now with
    | Raise e => (exception_handler e, db)
    | Return user => endpoint route user db now
    end.
Proof. simpl. by destruct (Depends_get_current_user route db tok now). Qed.

End authentication.




(** ** Registration *)

Lemma find_snoc_fresh {A : Type} (f : A → bool) (l : list A) (x : A) :
  List.find f l = None → f x = true → List.find f (l ++ [x]) = Some x.
Proof.
  intros Hnone Hx. induction l as [|y l IH]; simpl in *.
  - by rewrite Hx.
  - destruct (f y); [done|]. by apply IH.
Qed.

Lemma find_none_existsb {A : Type} (f : A → bool) (l : list A) :
  List.find f l = None → existsb f l = false.
Proof.
  induction l as [|x l IH]; simpl; [done|]. destruct (f x); [done | exact IH].
Qed.

Lemma get_user_find {S : Postgres} (db : database.AsyncSession) (username : string)
    (r : option models.User) :
  get_user db username = Return r →
  binds_text username = true ∧
  List.find (λ u, String.eqb (models.User_username u) username) (database.User_table db)
  = r.
Proof.
  unfold get_user, database.first_User_by_username.
  destruct (binds_text username); simpl; [|done]. by intros [= ->].
Qed.

(** What a registration that gets as far as the [INSERT] does. *)
Lemma register_free {J : Jose} {P : Passlib} {S : Postgres}
    (db : database.AsyncSession) (u p hashed : string) (s : salt) (now : Z) :
  get_user db u = Return None →
  get_password_hash s p = Return hashed →
  binds_text hashed = true →
  database.int32 (database.User_id_seq db + 1) = true →
  fits_index u = true →
  let new_user := models.mkUser (database.User_id_seq db + 1) u hashed now in
  let db1 :=
    database.mkSession (database.User_table db ++ [new_user]) (database.Task_table db)
      (database.User_id_seq db + 1) (database.Task_id_seq db) in
  register (schemas.mkUserCreate u p) db s now
  = (Return (JObj [("msg", JStr "User registered successfully")]), db1) ∧
  get_user db1 u = Return (Some new_user).
Proof.
  intros Hfree Hhash Hhashed Hseq Hindex new_user db1.
  destruct (get_user_find _ _ _ Hfree) as [Hbinds Hfind].
  split.
  - unfold register. cbn [schemas.UserCreate_username schemas.UserCreate_password].
    rewrite Hfree, Hhash. unfold database.add_User.
    by rewrite Hbinds, Hhashed, Hseq, Hindex, (find_none_existsb _ _ Hfind).
  - unfold get_user, database.first_User_by_username. rewrite Hbinds. simpl. f_equal.
    apply find_snoc_fresh; [exact Hfind|]. simpl. apply String.eqb_refl.
Qed.

(** C4, as the code has it.  For every username [u] not yet taken that the
    server accepts as a parameter and as an entry of the username index, and
    every password [p] that passlib hashes, while the id sequence is not
    exhausted: [POST /register] answers with a success status (200) and the
    message, and stores one new user row for [u] whose digest is the hash of
    [p] under the salt drawn; a second [POST /register] for [u], with any
    password, answers 400 "Username already registered" and leaves the
    store, and so the first row, as it was. *)
Theorem register_twice {J : Jose} {P : Passlib} {S : Postgres}
    (db : database.AsyncSession) (u p p' hashed : string) (s s' : salt) (now now' : Z) :
  get_user db u = Return None →
  get_password_hash s p = Return hashed →
  binds_text hashed = true →
  database.int32 (database.User_id_seq db + 1) = true →
  fits_index u = true →
  let new_user := models.mkUser (database.User_id_seq db + 1) u hashed now in
  let db1 :=
    database.mkSession (database.User_table db ++ [new_user]) (database.Task_table db)
      (database.User_id_seq db + 1) (database.Task_id_seq db) in
  app (POST_register (schemas.mkUserCreate u p)) db s now
  = (mkResponse 200 [] (Some (JObj [("msg", JStr "User registered successfully")])),
     db1) ∧
  get_user db1 u = Return (Some new_user) ∧
  app (POST_register (schemas.mkUserCreate u p')) db1 s' now'
  = (mkResponse 400 [] (Some (JObj [("detail", JStr "Username already registered")])),
     db1).
Proof.
  intros Hfree Hhash Hhashed Hseq Hindex new_user db1.
  destruct (register_free db u p hashed s now Hfree Hhash Hhashed Hseq Hindex)
    as [Hregister Hfound].
  split; [|split].
  - unfold app. by rewrite Hregister.
  - exact Hfound.
  - unfold app, register. cbn [schemas.UserCreate_username].
    fold new_user db1 in Hfound. by rewrite Hfound.
Qed.

Lemma register_twice_witness :
  @get_user symbolic.postgres symbolic.store "carol" = Return None ∧
  @get_password_hash symbolic.passlib "s3" "pw3" = Return "s3$pw3" ∧
  @app symbolic.jose symbolic.passlib symbolic.postgres
    (POST_register (schemas.mkUserCreate "carol" "pw3")) symbolic.store "s3" 5
  = (mkResponse 200 [] (Some (JObj [("msg", JStr "User registered successfully")])),
     database.mkSession
       [symbolic.alice; symbolic.bob; models.mkUser 3 "carol" "s3$pw3" 5]
       [symbolic.groceries; symbolic.laundry] 3 2).
Proof.
  split; [reflexivity|]. split; [reflexivity|].
  exact (proj1 (@register_twice symbolic.jose symbolic.passlib symbolic.postgres
                  symbolic.store "carol" "pw3" "other" "s3$pw3" "s3" "s4" 5 6
                  eq_refl eq_refl eq_refl eq_refl eq_refl)).
Defined.

(** C4, as stated: for every username, a first [POST /register] would create
    the user.  No stored user has the name that holds U+0000; registering it
    is answered with 500, and no user is stored. *)
Lemma register_refuses_nul_username :
  Forall (λ u, models.User_username u ≠ symbolic.nul_name)
    (database.User_table symbolic.store) ∧
  @app symbolic.jose symbolic.passlib symbolic.postgres
    (POST_register (schemas.mkUserCreate symbolic.nul_name "pw3")) symbolic.store "s3" 5
  = (mkResponse 500 [] (Some (JStr "Internal Server Error")), symbolic.store).
Proof. split; [repeat constructor; discriminate | reflexivity]. Qed.

(** ** Tokens *)

(** C5, as the code has it.  [create_access_token] without [expires_delta]
    stamps the token with an expiry 15 minutes after the clock; a token
    issued by [POST /token] is given [ACCESS_TOKEN_EXPIRE_MINUTES] = 30
    minutes explicitly, so its expiry is 30 minutes after issuance. *)
Theorem token_expiry {J : Jose} {P : Passlib} {S : Postgres}
    (db : database.AsyncSession) (form_username form_password : string)
    (user : models.User) (data : gmap string pyval) (now : Z) :
  authenticate_user db form_username form_password = Return (Some user) →
  to_encode data None now !! "exp" = Some (PDatetime (now + timedelta_minutes 15)) ∧
  to_encode {["sub" := PStr (models.User_username user)]}
    (Some (timedelta_minutes ACCESS_TOKEN_EXPIRE_MINUTES)) now !! "exp"
  = Some (PDatetime (now + timedelta_minutes 30)) ∧
  login_for_access_token form_username form_password db now
  = Return
      (jwt_encode
         (<["exp" := PDatetime (now + timedelta_minutes 30)]>
            {["sub" := PStr (models.User_username user)]})
         SECRET_KEY ALGORITHM,
       "bearer").
Proof.
  intros Hauth. split; [|split].
  - unfold to_encode. apply lookup_insert_eq.
  - unfold to_encode. simpl. apply lookup_insert_eq.
  - unfold login_for_access_token. rewrite Hauth. reflexivity.
Qed.

Lemma token_expiry_witness :
  @authenticate_user symbolic.passlib symbolic.postgres symbolic.store "alice" "pw1"
  = Return (Some symbolic.alice) ∧
  @login_for_access_token symbolic.jose symbolic.passlib symbolic.postgres
    "alice" "pw1" symbolic.store 0
  = Return
      (symbolic.Signed (<["exp" := PInt 1800]> {["sub" := PStr "alice"]})
         "your-secret-key" "HS256",
       "bearer").
Proof.
  split; [reflexivity|].
  rewrite (proj2 (proj2 (@token_expiry symbolic.jose symbolic.passlib symbolic.postgres
                           symbolic.store "alice" "pw1" symbolic.alice ∅ 0 eq_refl))).
  simpl. unfold symbolic.encode.
  rewrite lookup_insert_eq, insert_insert_eq. reflexivity.
Defined.

(** C5, as stated: the expiry stamped without [expires_delta] would be 30
    minutes after the clock.  At clock 0 it is 900 seconds, not 1800. *)
Lemma default_ttl_is_not_30_minutes :
  to_encode {["sub" := PStr "alice"]} None 0 !! "exp"
  = Some (PDatetime (900 * 1000000)) ∧
  to_encode {["sub" := PStr "alice"]} None 0 !! "exp"
  ≠ Some (PDatetime (0 + timedelta_minutes ACCESS_TOKEN_EXPIRE_MINUTES)).
Proof.
  unfold to_encode. rewrite lookup_insert_eq. split; [reflexivity|].
  intros Heq. injection Heq. discriminate.
Qed.

Lemma timegm_mono (a b : Z) : a ≤ b → timegm a ≤ timegm b.
Proof. intros Hle. unfold timegm. apply Z.div_le_mono; lia. Qed.

(** The expiry [create_access_token] stamps is never earlier than the
    clock plus the requested delta. *)
Lemma to_encode_expiry (s : string) (delta now : Z) :
  ∃ expire,
    to_encode {["sub" := PStr s]} (Some delta) now
    = <["exp" := PDatetime expire]> {["sub" := PStr s]} ∧
    now + delta ≤ expire.
Proof.
  unfold to_encode. destruct (delta =? 0) eqn:E.
  - apply Z.eqb_eq in E. subst delta. eexists. split; [reflexivity|].
    unfold timedelta_minutes. lia.
  - eexists. split; [reflexivity|]. lia.
Qed.

(** A token issued for [s] decodes, until its expiry, to a payload with the
    subject [s]. *)
Lemma issued_token_decodes {J : Jose} {L : JoseLaws J} (s : string) (t issued now : Z) :
  now ≤ issued + t →
  ∃ payload,
    jwt_decode (create_access_token {["sub" := PStr s]} (Some t) issued)
      SECRET_KEY [ALGORITHM] now = inr payload ∧
    payload !! "sub" = Some (PStr s).
Proof.
  intros Hbefore.
  destruct (to_encode_expiry s t issued) as (expire & Hclaims & Hexpire).
  exists (<["exp" := PInt (timegm expire)]> {["sub" := PStr s]}). split.
  - unfold create_access_token. rewrite Hclaims, jwt_decode_encode.
    assert (timegm now ≤ timegm expire) by (apply timegm_mono; lia).
    destruct (timegm expire <? timegm now) eqn:E; [|done].
    apply Z.ltb_lt in E. lia.
  - rewrite lookup_insert_ne by done. apply lookup_singleton_eq.
Qed.

(** C6. Round trip.  For every subject [s] and delta [t], the token issued
    for [{"sub": s}] with expiry delta [t] at clock [issued], decoded with
    the same key and algorithm at any clock [now] no later than
    [issued + t], yields a payload whose [sub] is [s]; and
    [get_current_user] looks up exactly [s]: it returns the user stored
    under [s], raises the 401 when there is none, and raises what the lookup
    raises when the server refuses [s]. *)
Theorem token_round_trip {J : Jose} {S : Postgres} {L : JoseLaws J}
    (s : string) (t issued now : Z) (db : database.AsyncSession) :
  now ≤ issued + t →
  let tok := create_access_token {["sub" := PStr s]} (Some t) issued in
  (∃ payload,
     jwt_decode tok SECRET_KEY [ALGORITHM] now = inr payload ∧
     payload !! "sub" = Some (PStr s)) ∧
  get_current_user tok db now
  = match get_user db s with
    | Return (Some user) => Return user
    | Return None => Raise credentials_exception
    | Raise e => Raise e
    end.
Proof.
  intros Hbefore tok.
  destruct (issued_token_decodes s t issued now Hbefore) as (payload & Hdec & Hsub).
  split.
  - exists payload. split; [exact Hdec | exact Hsub].
  - unfold get_current_user, payload_get, get_user. fold tok in Hdec.
    by rewrite Hdec, Hsub.
Qed.

Lemma token_round_trip_witness :
  symbolic.later ≤ 0 + timedelta_minutes 30 ∧
  @get_current_user symbolic.jose symbolic.postgres symbolic.alice_token
    symbolic.store symbolic.later
  = Return symbolic.alice.
Proof.
  assert (Hbefore : symbolic.later ≤ 0 + timedelta_minutes 30)
    by (unfold symbolic.later, timedelta_minutes; lia).
  split; [exact Hbefore|].
  exact (proj2 (@token_round_trip symbolic.jose symbolic.postgres symbolic_jose_laws
                  "alice" (timedelta_minutes 30) 0 symbolic.later symbolic.store
                  Hbefore)).
Defined.

(** The other side of the expiry: once the expiry second has passed, the
    token issued for [s] is refused. *)
Lemma expired_token_is_unauthorized {J : Jose} {S : Postgres} {L : JoseLaws J}
    (s : string) (t issued now : Z) (db : database.AsyncSession) :
  t ≠ 0 →
  timegm (issued + t) < timegm now →
  get_current_user (create_access_token {["sub" := PStr s]} (Some t) issued) db now
  = Raise credentials_exception.
Proof.
  intros Hnz Hpast. unfold get_current_user, create_access_token, to_encode.
  apply Z.eqb_neq in Hnz. rewrite Hnz, jwt_decode_encode.
  apply Z.ltb_lt in Hpast. by rewrite Hpast.
Qed.

(** ** What a response carries *)

(** The outcomes of an insert of a task: the commit fails, with or without
    a sequence value drawn, or the row is stored. *)
Lemma add_Task_cases {S : Postgres} (db : database.AsyncSession)
    (title description : string) (is_complete : bool) (owner_id now : Z) :
  let new_task :=
    models.mkTask (database.Task_id_seq db + 1) title description is_complete
      owner_id now in
  database.add_Task db title description is_complete owner_id now
  = (Raise DBAPIError, db) ∨
  database.add_Task db title description is_complete owner_id now
  = (Raise DBAPIError,
     database.mkSession (database.User_table db) (database.Task_table db)
       (database.User_id_seq db) (database.Task_id_seq db + 1)) ∨
  database.add_Task db title description is_complete owner_id now
  = (Return new_task,
     database.mkSession (database.User_table db) (database.Task_table db ++ [new_task])
       (database.User_id_seq db) (database.Task_id_seq db + 1)).
Proof.
  unfold database.add_Task. cbv zeta.
  repeat match goal with
         | |- context [if ?b then _ else _] => destruct b
         end; auto.
Qed.

(** The outcomes of an insert of a user. *)
Lemma add_User_cases {S : Postgres} (db : database.AsyncSession)
    (username hashed_password : string) (now : Z) :
  let new_user :=
    models.mkUser (database.User_id_seq db + 1) username hashed_password now in
  database.add_User db username hashed_password now = (Raise DBAPIError, db) ∨
  database.add_User db username hashed_password now
  = (Raise DBAPIError,
     database.mkSession (database.User_table db) (database.Task_table db)
       (database.User_id_seq db + 1) (database.Task_id_seq db)) ∨
  database.add_User db username hashed_password now
  = (Return new_user,
     database.mkSession (database.User_table db ++ [new_user]) (database.Task_table db)
       (database.User_id_seq db + 1) (database.Task_id_seq db)).
Proof.
  unfold database.add_User. cbv zeta.
  repeat match goal with
         | |- context [if ?b then _ else _] => destruct b
         end; auto.
Qed.

(** C9. [GET /tasks], [GET /tasks/{id}] and [PUT /tasks/{id}] serialise
    each task through [TaskCreate]: whenever one of them returns a task,
    its body has exactly the fields [title], [description], [is_complete],
    so no [id], [owner_id] or [created_at]; [POST /tasks], when it returns
    the task, returns the whole row. *)
Theorem task_response_fields {J : Jose} {S : Postgres}
    (db : database.AsyncSession) (caller : models.User) (task_id : Z)
    (body : schemas.TaskCreate) (now : Z) :
  (∃ items,
     fst (endpoint GET_tasks caller db now) = mkResponse 200 [] (Some (JArr items)) ∧
     length items
     = length (database.all_Task_by_owner db (models.User_id caller)) ∧
     Forall (λ item, keys item = ["title"; "description"; "is_complete"]) items) ∧
  (∀ task,
     database.get_Task db task_id = Return (Some task) →
     models.Task_owner_id task = models.User_id caller →
     fst (endpoint (GET_task task_id) caller db now)
     = mkResponse 200 []
         (Some (JObj [("title", JStr (models.Task_title task));
                      ("description", JStr (models.Task_description task));
                      ("is_complete", JBool (models.Task_is_complete task))]))) ∧
  (status_code (fst (endpoint (GET_task task_id) caller db now)) = 200 →
   ∃ item,
     content (fst (endpoint (GET_task task_id) caller db now)) = Some item ∧
     keys item = ["title"; "description"; "is_complete"]) ∧
  (status_code (fst (endpoint (PUT_task task_id body) caller db now)) = 200 →
   fst (endpoint (PUT_task task_id body) caller db now)
   = mkResponse 200 []
       (Some (JObj [("title", JStr (schemas.TaskCreate_title body));
                    ("description", JStr (schemas.TaskCreate_description body));
                    ("is_complete", JBool (schemas.TaskCreate_is_complete body))]))) ∧
  (status_code (fst (endpoint (POST_tasks body) caller db now)) = 201 →
   ∃ created,
     fst (endpoint (POST_tasks body) caller db now) = mkResponse 201 [] (Some created) ∧
     keys created
     = ["id"; "title"; "description"; "is_complete"; "owner_id"; "created_at"]).
Proof.
  split; [|split; [|split; [|split]]].
  - eexists. split; [reflexivity|]. split.
    + by rewrite length_map.
    + apply Forall_forall. intros item Hin.
      apply list_elem_of_In, in_map_iff in Hin as (t & <- & _). reflexivity.
  - intros task Hget Howner. apply Z.eqb_eq in Howner.
    simpl. unfold get_task. by rewrite Hget, Howner.
  - simpl. unfold get_task.
    destruct (get_Task_cases db task_id) as [-> | [[t|] ->]]; simpl; [done| |done].
    destruct (models.Task_owner_id t =? models.User_id caller); simpl; [|done].
    intros _. by eexists.
  - simpl. unfold update_task.
    destruct (get_Task_cases db task_id) as [-> | [[t|] ->]]; simpl; [done| |done].
    destruct (models.Task_owner_id t =? models.User_id caller); simpl; [|done].
    destruct (update_Task_cases db t (schemas.TaskCreate_title body)
                (schemas.TaskCreate_description body)
                (schemas.TaskCreate_is_complete body))
      as [-> | [[-> _] | ->]]; done.
  - simpl. unfold create_task.
    destruct (add_Task_cases db (schemas.TaskCreate_title body)
                (schemas.TaskCreate_description body)
                (schemas.TaskCreate_is_complete body) (models.User_id caller) now)
      as [-> | [-> | ->]]; try done.
    intros _. by eexists.
Qed.

Lemma task_response_fields_witness :
  status_code
    (fst (@endpoint symbolic.jose symbolic.postgres
            (PUT_task 1 (schemas.mkTaskCreate "shopping" "bread" true))
            symbolic.alice symbolic.store 0)) = 200 ∧
  fst (@endpoint symbolic.jose symbolic.postgres (GET_task 1) symbolic.alice
         symbolic.store 0)
  = mkResponse 200 []
      (Some (JObj [("title", JStr "groceries"); ("description", JStr "milk");
                   ("is_complete", JBool false)])) ∧
  fst (@endpoint symbolic.jose symbolic.postgres
         (PUT_task 1 (schemas.mkTaskCreate "shopping" "bread" true))
         symbolic.alice symbolic.store 0)
  = mkResponse 200 []
      (Some (JObj [("title", JStr "shopping"); ("description", JStr "bread");
                   ("is_complete", JBool true)])).
Proof.
  pose proof (@task_response_fields symbolic.jose symbolic.postgres symbolic.store
                symbolic.alice 1 (schemas.mkTaskCreate "shopping" "bread" true) 0)
    as (_ & Hget & _ & Hput & _).
  assert (Hok : status_code
                  (fst (@endpoint symbolic.jose symbolic.postgres
                          (PUT_task 1 (schemas.mkTaskCreate "shopping" "bread" true))
                          symbolic.alice symbolic.store 0)) = 200) by reflexivity.
  split; [exact Hok|]. split.
  - exact (Hget symbolic.groceries eq_refl eq_refl).
  - exact (Hput Hok).
Defined.

Section exposure.

Context {J : Jose} {P : Passlib} {S : Postgres}.

Lemma TaskCreate_list_hides (k : string) (ts : list models.Task) :
  k ≠ "title" → k ≠ "description" → k ≠ "is_complete" →
  mentions k (JArr (List.map response_model_TaskCreate ts)) = false.
Proof.
  intros H1 H2 H3.
  assert (E : ∀ a : string, k ≠ a → String.eqb a k = false).
  { intros a Hne. apply String.eqb_neq. congruence. }
  cbn -[String.eqb]. induction ts as [|t ts IH]; cbn -[String.eqb]; [done|].
  by rewrite IH, !E.
Qed.

(** No error answer carries a digest. *)
Lemma exception_handler_hides (e : exn) :
  exposes "hashed_password" (exception_handler e) = false.
Proof. by destruct e. Qed.

(** What [Depends(get_current_user)] can raise. *)
Lemma Depends_get_current_user_raises (route : Route) (db : database.AsyncSession)
    (tok : token) (now : Z) (e : exn) :
  Depends_get_current_user route db tok now = Raise e →
  e = credentials_exception ∨ e = ValidationError ∨ e = DBAPIError.
Proof.
  unfold Depends_get_current_user, get_current_user_TokenData, get_current_user,
    payload_get, get_user, database.first_User_by_username.
  destruct (jwt_decode tok SECRET_KEY [ALGORITHM] now) as [?|payload];
    [destruct route; intros [= <-]; by left|].
  destruct (payload !! "sub") as [[|username| |]|]; simpl;
    try destruct (binds_text username); simpl;
    try destruct (List.find _ _);
    destruct route; intros [= <-]; eauto.
Qed.

(** No task route carries a digest. *)
Lemma endpoint_hides (route : Route) (user : models.User) (db : database.AsyncSession)
    (now : Z) :
  route ≠ GET_users_me →
  exposes "hashed_password" (fst (endpoint route user db now)) = false.
Proof.
  intros Hroute.
  destruct route as [|task| |task_id|task_id task|task_id]; [done|..].
  - unfold endpoint, create_task.
    destruct (add_Task_cases db (schemas.TaskCreate_title task)
                (schemas.TaskCreate_description task)
                (schemas.TaskCreate_is_complete task) (models.User_id user) now)
      as [-> | [-> | ->]]; done.
  - unfold endpoint, get_tasks, respond, exposes, content, fst.
    by rewrite TaskCreate_list_hides.
  - unfold endpoint, get_task.
    destruct (get_Task_cases db task_id) as [-> | [[t|] ->]]; [done| |done].
    by destruct (models.Task_owner_id t =? models.User_id user).
  - unfold endpoint, update_task.
    destruct (get_Task_cases db task_id) as [-> | [[t|] ->]]; [done| |done].
    destruct (models.Task_owner_id t =? models.User_id user); [|done]. simpl.
    destruct (update_Task_cases db t (schemas.TaskCreate_title task)
                (schemas.TaskCreate_description task)
                (schemas.TaskCreate_is_complete task))
      as [-> | [[-> _] | ->]]; done.
  - unfold endpoint, delete_task.
    destruct (get_Task_cases db task_id) as [-> | [[t|] ->]]; [done| |done].
    by destruct (models.Task_owner_id t =? models.User_id user).
Qed.

(** Neither open route carries a digest. *)
Lemma register_hides (user : schemas.UserCreate) (db : database.AsyncSession)
    (s : salt) (now : Z) :
  exposes "hashed_password" (fst (app (POST_register user) db s now)) = false.
Proof.
  unfold app, register.
  destruct (get_user db (schemas.UserCreate_username user)) as [[u|]|e];
    [done| |apply exception_handler_hides].
  destruct (get_password_hash s (schemas.UserCreate_password user)) as [hashed|e];
    [|apply exception_handler_hides].
  destruct (add_User_cases db (schemas.UserCreate_username user) hashed now)
    as [-> | [-> | ->]]; done.
Qed.

Lemma login_hides (form_username form_password : string) (db : database.AsyncSession)
    (s : salt) (now : Z) :
  exposes "hashed_password" (fst (app (POST_token form_username form_password) db s now))
  = false.
Proof.
  unfold app, login_for_access_token.
  destruct (authenticate_user db form_username form_password) as [[u|]|e];
    [done..|apply exception_handler_hides].
Qed.

End exposure.

(** C1, as the code has it.  A response mentions [hashed_password] exactly
    when it is the 200 answer of [GET /users/me]: no other route, and no
    error answer of any route, carries the field; and for a request whose
    token resolves to a user, [GET /users/me] returns that user's row as
    stored, the digest included. *)
Theorem only_users_me_exposes_hashed_password {J : Jose} {P : Passlib} {S : Postgres}
    (req : Request) (db : database.AsyncSession) (s : salt) (now : Z) :
  (exposes "hashed_password" (fst (app req db s now)) = true ↔
   ∃ authorization,
     req = Bearer authorization GET_users_me ∧
     status_code (fst (app req db s now)) = 200) ∧
  (∀ tok user,
     req = Bearer (Some tok) GET_users_me →
     get_current_user_TokenData db tok now = Return user →
     app req db s now
     = (mkResponse 200 []
          (Some (JObj [("id", JInt (models.User_id user));
                       ("username", JStr (models.User_username user));
                       ("hashed_password", JStr (models.User_hashed_password user));
                       ("created_at", JDatetime (models.User_created_at user))])),
        db)).
Proof.
  split.
  - destruct req as [user|form_username form_password|authorization route].
    + rewrite register_hides. split; [done | by intros (? & [=] & _)].
    + rewrite login_hides. split; [done | by intros (? & [=] & _)].
    + destruct authorization as [tok|];
        [|split; [done | by intros (? & _ & [=])]].
      rewrite app_Bearer.
      destruct (Depends_get_current_user route db tok now) as [user|e] eqn:Hdep.
      * destruct route as [|task| |task_id|task_id task|task_id];
          [split; [intros _; by eexists | done]|..];
          (rewrite endpoint_hides by done;
           split; [done | by intros (? & [=] & _)]).
      * cbn [fst]. rewrite exception_handler_hides.
        destruct (Depends_get_current_user_raises _ _ _ _ _ Hdep) as [-> | [-> | ->]];
          (split; [done | by intros (? & _ & [=])]).
  - intros tok user -> Hdep. unfold app, oauth2_scheme, Depends_get_current_user.
    by rewrite Hdep.
Qed.

Lemma only_users_me_exposes_hashed_password_witness :
  @app symbolic.jose symbolic.passlib symbolic.postgres
    (Bearer (Some symbolic.alice_token) GET_users_me) symbolic.store "s3" symbolic.later
  = (mkResponse 200 []
       (Some (JObj [("id", JInt 1); ("username", JStr "alice");
                    ("hashed_password", JStr "s1$pw1"); ("created_at", JDatetime 0)])),
     symbolic.store).
Proof.
  apply (proj2 (@only_users_me_exposes_hashed_password symbolic.jose symbolic.passlib
                  symbolic.postgres
                  (Bearer (Some symbolic.alice_token) GET_users_me)
                  symbolic.store "s3" symbolic.later)
           symbolic.alice_token symbolic.alice eq_refl).
  vm_compute. reflexivity.
Defined.

(** C1, as stated: no response of any route would mention a user's
    [hashed_password].  Alice, asking for [/users/me] with the token
    [POST /token] gave her, is sent her own digest. *)
Lemma users_me_exposes_hashed_password :
  exposes "hashed_password"
    (fst (@app symbolic.jose symbolic.passlib symbolic.postgres
            (Bearer (Some symbolic.alice_token) GET_users_me)
            symbolic.store "s3" symbolic.later))
  = true ∧
  content
    (fst (@app symbolic.jose symbolic.passlib symbolic.postgres
            (Bearer (Some symbolic.alice_token) GET_users_me)
            symbolic.store "s3" symbolic.later))
  = Some (JObj [("id", JInt 1); ("username", JStr "alice");
                ("hashed_password", JStr (models.User_hashed_password symbolic.alice));
                ("created_at", JDatetime 0)]).
Proof. split; [vm_compute; reflexivity | reflexivity]. Qed.

(** ** The duplicated definitions *)




(** ** The store stays consistent *)

Lemma NoDup_map_filter {A B : Type} (f : A → B) (p : A → bool) (l : list A) :
  NoDup (List.map f l) → NoDup (List.map f (List.filter p l)).
Proof.
  induction l as [|x l IH]; simpl; [done|].
  intros Hnd. apply NoDup_cons in Hnd as [Hnotin Hnd].
  destruct (p x); simpl; [|by apply IH].
  apply NoDup_cons. split; [|by apply IH].
  intros Hin. apply Hnotin.
  apply list_elem_of_In, in_map_iff in Hin as (y & Hy & Hin).
  apply filter_In in Hin as [Hin _].
  apply list_elem_of_In, in_map_iff. by exists y.
Qed.

Lemma NoDup_snoc_fresh {A : Type} (l : list A) (x : A) :
  NoDup l → x ∉ l → NoDup (l ++ [x]).
Proof.
  intros Hnd Hnotin. apply NoDup_app. split; [done|]. split; [|apply NoDup_singleton].
  intros y Hy Hin. apply list_elem_of_singleton in Hin. by subst.
Qed.

(** An update keeps the primary keys of the table. *)
Lemma rewritten_ids (table : list models.Task) (t : models.Task)
    (title description : string) (is_complete : bool) :
  List.map models.Task_id (database.rewritten table t title description is_complete)
  ≡ₚ List.map models.Task_id table.
Proof.
  unfold database.rewritten. rewrite map_app, map_map. simpl.
  rewrite <- map_app. apply Permutation_map, filter_partition.
Qed.

Lemma rewritten_Forall_id (Q : Z → Prop) (table : list models.Task) (t : models.Task)
    (title description : string) (is_complete : bool) :
  Forall (λ r, Q (models.Task_id r)) table →
  Forall (λ r, Q (models.Task_id r))
    (database.rewritten table t title description is_complete).
Proof.
  rewrite !Forall_forall. intros Hall r Hin.
  apply list_elem_of_In, in_app_or in Hin as [Hin | Hin].
  - apply filter_In in Hin as [Hin _]. by apply Hall, list_elem_of_In.
  - apply in_map_iff in Hin as (r' & <- & Hin).
    apply filter_In in Hin as [Hin _]. simpl. by apply Hall, list_elem_of_In.
Qed.

Section consistency.

Context {J : Jose} {P : Passlib} {S : Postgres}.

Lemma seq_bump_consistent (db : database.AsyncSession) (du dt : Z) :
  0 ≤ du → 0 ≤ dt →
  database.consistent db →
  database.consistent
    (database.mkSession (database.User_table db) (database.Task_table db)
       (database.User_id_seq db + du) (database.Task_id_seq db + dt)).
Proof.
  intros Hu Ht [Hupk Huname Htpk Hubound Htbound]. split; simpl; try done.
  - eapply Forall_impl; [exact Hubound|]. simpl. intros; lia.
  - eapply Forall_impl; [exact Htbound|]. simpl. intros; lia.
Qed.

Lemma endpoint_preserves_consistent (route : Route) (user : models.User)
    (db : database.AsyncSession) (now : Z) :
  database.consistent db → database.consistent (snd (endpoint route user db now)).
Proof.
  intros Hc. pose proof Hc as [Hupk Huname Htpk Hubound Htbound].
  destruct route as [|task| |task_id|task_id task|task_id]; simpl; try done.
  - unfold create_task.
    destruct (add_Task_cases db (schemas.TaskCreate_title task)
                (schemas.TaskCreate_description task)
                (schemas.TaskCreate_is_complete task) (models.User_id user) now)
      as [-> | [-> | ->]]; simpl; [done| |].
    + pose proof (seq_bump_consistent db 0 1) as Hbump.
      rewrite Z.add_0_r in Hbump. apply Hbump; done || lia.
    + split; simpl; try done.
      * rewrite map_app. apply NoDup_snoc_fresh; [done|]. simpl.
        intros Hin. apply list_elem_of_In, in_map_iff in Hin as (t & Hid & Hin).
        rewrite Forall_forall in Htbound.
        apply list_elem_of_In, Htbound in Hin. lia.
      * apply Forall_app. split.
        -- eapply Forall_impl; [exact Htbound|]. simpl. intros; lia.
        -- apply Forall_singleton. simpl. lia.
  - unfold update_task.
    destruct (get_Task_cases db task_id) as [-> | [[t|] ->]]; [done| |done].
    destruct (models.Task_owner_id t =? models.User_id user); simpl; [|done].
    destruct (update_Task_cases db t (schemas.TaskCreate_title task)
                (schemas.TaskCreate_description task)
                (schemas.TaskCreate_is_complete task))
      as [-> | [[-> _] | ->]]; simpl; [done..|].
    split; simpl; try done.
    + by rewrite rewritten_ids.
    + by apply (rewritten_Forall_id (λ i, i ≤ database.Task_id_seq db)).
  - unfold delete_task.
    destruct (get_Task_cases db task_id) as [-> | [[t|] ->]]; [done| |done].
    destruct (models.Task_owner_id t =? models.User_id user); simpl; [|done].
    split; simpl; try done.
    + by apply NoDup_map_filter.
    + apply Forall_forall. intros r Hin.
      apply list_elem_of_In, filter_In in Hin as [Hin _].
      rewrite Forall_forall in Htbound. by apply list_elem_of_In, Htbound in Hin.
Qed.

End consistency.

(** X9. Every request takes a consistent store to a consistent store: the
    uniqueness of primary keys and usernames, and the bound of every id by
    its sequence, hold in every store the application can reach from the
    empty one. *)
Lemma app_preserves_consistent {J : Jose} {P : Passlib} {S : Postgres}
    (req : Request) (db : database.AsyncSession) (s : salt) (now : Z) :
  database.consistent db → database.consistent (snd (app req db s now)).
Proof.
  intros Hc. pose proof Hc as [Hupk Huname Htpk Hubound Htbound].
  destruct req as [user|form_username form_password|authorization route].
  - unfold app, register.
    destruct (get_user db (schemas.UserCreate_username user)) as [[u|]|e] eqn:Hfree;
      [done| |done].
    apply get_user_find in Hfree as [_ Hfree].
    destruct (get_password_hash s (schemas.UserCreate_password user)) as [hashed|e];
      [|done].
    destruct (add_User_cases db (schemas.UserCreate_username user) hashed now)
      as [-> | [-> | ->]]; simpl; [done| |].
    + pose proof (seq_bump_consistent db 1 0) as Hbump.
      rewrite Z.add_0_r in Hbump. apply Hbump; done || lia.
    + split; simpl; try done.
      * rewrite map_app. apply NoDup_snoc_fresh; [done|]. simpl.
        intros Hin. apply list_elem_of_In, in_map_iff in Hin as (u & Hid & Hin).
        rewrite Forall_forall in Hubound.
        apply list_elem_of_In, Hubound in Hin. lia.
      * rewrite map_app. apply NoDup_snoc_fresh; [done|]. simpl.
        intros Hin. apply list_elem_of_In, in_map_iff in Hin as (u & Hname & Hin).
        eapply find_none in Hfree; [|exact Hin]. simpl in Hfree.
        apply String.eqb_neq in Hfree. done.
      * apply Forall_app. split.
        -- eapply Forall_impl; [exact Hubound|]. simpl. intros; lia.
        -- apply Forall_singleton. simpl. lia.
  - done.
  - destruct authorization as [tok|]; [|done]. rewrite app_Bearer.
    destruct (Depends_get_current_user route db tok now) as [user|e]; [|done].
    by apply endpoint_preserves_consistent.
Qed.

Lemma empty_consistent : database.consistent database.empty.
Proof. split; simpl; by constructor. Qed.

Lemma symbolic_store_consistent : database.consistent symbolic.store.
Proof.
  split; simpl.
  - apply NoDup_cons. split; [|apply NoDup_singleton].
    intros Hin. apply list_elem_of_singleton in Hin. lia.
  - apply NoDup_cons. split; [|apply NoDup_singleton].
    intros Hin. apply list_elem_of_singleton in Hin. discriminate.
  - apply NoDup_cons. split; [|apply NoDup_singleton].
    intros Hin. apply list_elem_of_singleton in Hin. lia.
  - repeat constructor; simpl; lia.
  - repeat constructor; simpl; lia.
Qed.

Lemma app_preserves_consistent_witness :
  database.consistent
    (snd (@app symbolic.jose symbolic.passlib symbolic.postgres
            (POST_register (schemas.mkUserCreate "carol" "pw3")) symbolic.store "s3" 5)).
Proof.
  exact (@app_preserves_consistent symbolic.jose symbolic.passlib symbolic.postgres
           (POST_register (schemas.mkUserCreate "carol" "pw3")) symbolic.store "s3" 5
           symbolic_store_consistent).
Defined.

(** * Further properties of the handlers *)

(** ** Login *)

(** X1. [POST /token] does not tell an unknown username from a wrong
    password: when the lookup finds no user, and when it finds one whose
    digest the password does not verify against, the answer is the same 401
    "Incorrect username or password" with the [WWW-Authenticate: Bearer]
    header, and the store is untouched. *)
Theorem login_failure_is_uniform {J : Jose} {P : Passlib} {S : Postgres}
    (db : database.AsyncSession) (form_username form_password : string)
    (s : salt) (now : Z) :
  (get_user db form_username = Return None ∨
   ∃ user, get_user db form_username = Return (Some user) ∧
           verify_password form_password (models.User_hashed_password user)
           = Return false) →
  app (POST_token form_username form_password) db s now
  = (mkResponse 401 [("WWW-Authenticate", "Bearer")]
       (Some (JObj [("detail", JStr "Incorrect username or password")])),
     db).
Proof.
  intros Hcase. unfold app, login_for_access_token, authenticate_user.
  destruct Hcase as [-> | (user & -> & ->)]; reflexivity.
Qed.

Lemma login_failure_is_uniform_witness :
  @app symbolic.jose symbolic.passlib symbolic.postgres
    (POST_token "mallory" "pw1") symbolic.store "s3" 0
  = @app symbolic.jose symbolic.passlib symbolic.postgres
      (POST_token "alice" "guess") symbolic.store "s3" 0.
Proof.
  rewrite (@login_failure_is_uniform symbolic.jose symbolic.passlib symbolic.postgres
             symbolic.store "mallory" "pw1" "s3" 0 (or_introl eq_refl)).
  rewrite (@login_failure_is_uniform symbolic.jose symbolic.passlib symbolic.postgres
             symbolic.store "alice" "guess" "s3" 0
             (or_intror (ex_intro _ symbolic.alice (conj eq_refl eq_refl)))).
  reflexivity.
Defined.

(** X2. Register, log in, call a protected route.  After a [POST /register]
    that stores the user (a free username [u] the server accepts, a
    password [p] passlib hashes), [POST /token] with the same pair answers
    200 with a bearer token, and that token, presented within 30 minutes of
    the login, resolves to the user just registered under either definition
    of [get_current_user]. *)
Theorem register_then_login {J : Jose} {P : Passlib} {S : Postgres}
    {LJ : JoseLaws J} {LP : PasslibLaws P}
    (db : database.AsyncSession) (u p hashed : string) (s s' : salt)
    (registered login now : Z) (route : Route) :
  get_user db u = Return None →
  get_password_hash s p = Return hashed →
  binds_text hashed = true →
  database.int32 (database.User_id_seq db + 1) = true →
  fits_index u = true →
  now ≤ login + timedelta_minutes ACCESS_TOKEN_EXPIRE_MINUTES →
  let db1 := snd (app (POST_register (schemas.mkUserCreate u p)) db s registered) in
  let new_user := models.mkUser (database.User_id_seq db + 1) u hashed registered in
  ∃ access_token,
    app (POST_token u p) db1 s' login
    = (mkResponse 200 []
         (Some (JObj [("access_token", JToken access_token);
                      ("token_type", JStr "bearer")])),
       db1) ∧
    Depends_get_current_user route db1 access_token now = Return new_user.
Proof.
  intros Hfree Hhash Hhashed Hseq Hindex Hbefore db1 new_user.
  destruct (register_free db u p hashed s registered Hfree Hhash Hhashed Hseq Hindex)
    as [Hregister Hfound].
  assert (Hdb1 : get_user db1 u = Return (Some new_user)).
  { unfold db1, app. rewrite Hregister. exact Hfound. }
  assert (Hauth : authenticate_user db1 u p = Return (Some new_user)).
  { unfold authenticate_user, verify_password. rewrite Hdb1. simpl.
    by rewrite (pwd_verify_hash _ _ _ Hhash). }
  exists (create_access_token {["sub" := PStr u]}
            (Some (timedelta_minutes ACCESS_TOKEN_EXPIRE_MINUTES)) login).
  split.
  - unfold app, login_for_access_token. rewrite Hauth. reflexivity.
  - destruct (issued_token_decodes u (timedelta_minutes ACCESS_TOKEN_EXPIRE_MINUTES)
                login now Hbefore) as (payload & Hdec & Hsub).
    rewrite Depends_get_current_user_eq. by rewrite Hdec, Hsub, Hdb1.
Qed.

Lemma register_then_login_witness :
  @get_user symbolic.postgres symbolic.store "carol" = Return None ∧
  symbolic.later ≤ 0 + timedelta_minutes ACCESS_TOKEN_EXPIRE_MINUTES ∧
  ∃ access_token : @token symbolic.jose,
    @Depends_get_current_user symbolic.jose symbolic.postgres GET_tasks
      (snd (@app symbolic.jose symbolic.passlib symbolic.postgres
              (POST_register (schemas.mkUserCreate "carol" "pw3")) symbolic.store "s3" 0))
      access_token symbolic.later
    = Return (models.mkUser 3 "carol" "s3$pw3" 0).
Proof.
  assert (Hbefore : symbolic.later ≤ 0 + timedelta_minutes ACCESS_TOKEN_EXPIRE_MINUTES)
    by (unfold symbolic.later, timedelta_minutes, ACCESS_TOKEN_EXPIRE_MINUTES; lia).
  split; [reflexivity|]. split; [exact Hbefore|].
  destruct (@register_then_login symbolic.jose symbolic.passlib symbolic.postgres
              symbolic_jose_laws symbolic_passlib_laws symbolic.store "carol" "pw3"
              "s3$pw3" "s3" "s4" 0 0 symbolic.later GET_tasks
              eq_refl eq_refl eq_refl eq_refl eq_refl Hbefore)
    as (access_token & _ & Hresolved).
  exists access_token. exact Hresolved.
Defined.

(** ** Looking users up *)

(** X3. With unique usernames, [get_user] is exact: it returns a row if and
    only if the server accepts the name asked for and that row is in the
    table under it. *)
Theorem get_user_finds_every_row {S : Postgres} (db : database.AsyncSession)
    (u : string) (user : models.User) :
  NoDup (List.map models.User_username (database.User_table db)) →
  (get_user db u = Return (Some user) ↔
   binds_text u = true ∧
   In user (database.User_table db) ∧ models.User_username user = u).
Proof.
  intros Hunique. split.
  - intros Hget. apply get_user_find in Hget as [Hbinds Hfind].
    apply find_some in Hfind as [Hin Heq].
    split; [exact Hbinds|]. split; [exact Hin | by apply String.eqb_eq].
  - intros (Hbinds & Hin & <-).
    unfold get_user, database.first_User_by_username. rewrite Hbinds. simpl. f_equal.
    induction (database.User_table db) as [|x l IH]; simpl in *; [done|].
    apply NoDup_cons in Hunique as [Hnotin Hunique].
    destruct (String.eqb (models.User_username x) (models.User_username user)) eqn:E.
    + destruct Hin as [-> | Hin]; [done|].
      apply String.eqb_eq in E. exfalso. apply Hnotin. rewrite E.
      apply list_elem_of_In, in_map. exact Hin.
    + destruct Hin as [-> | Hin]; [by rewrite String.eqb_refl in E|].
      by apply IH.
Qed.

Lemma get_user_finds_every_row_witness :
  NoDup (List.map models.User_username (database.User_table symbolic.store)) ∧
  (In symbolic.bob (database.User_table symbolic.store) ∧
   models.User_username symbolic.bob = "bob") ∧
  @get_user symbolic.postgres symbolic.store "bob" = Return (Some symbolic.bob).
Proof.
  assert (Hunique : NoDup (List.map models.User_username
                             (database.User_table symbolic.store))).
  { simpl. apply NoDup_cons. split; [|apply NoDup_singleton].
    intros Hin. apply list_elem_of_singleton in Hin. discriminate. }
  assert (Hin : In symbolic.bob (database.User_table symbolic.store) ∧
                models.User_username symbolic.bob = "bob")
    by (split; [right; left; reflexivity | reflexivity]).
  split; [exact Hunique|]. split; [exact Hin|].
  exact (proj2 (@get_user_finds_every_row symbolic.postgres symbolic.store "bob"
                  symbolic.bob Hunique)
           (conj eq_refl Hin)).
Defined.

(** ** Creating, updating and reading tasks *)

Lemma find_snoc_old {A : Type} (f : A → bool) (l : list A) (x : A) :
  f x = false → List.find f (l ++ [x]) = List.find f l.
Proof.
  intros Hx. induction l as [|y l IH]; simpl; [by rewrite Hx|].
  by destruct (f y).
Qed.

Lemma find_beyond_seq (db : database.AsyncSession) (task_id : Z) :
  Forall (λ t, models.Task_id t ≤ database.Task_id_seq db) (database.Task_table db) →
  database.Task_id_seq db < task_id →
  List.find (λ t, models.Task_id t =? task_id) (database.Task_table db) = None.
Proof.
  intros Hbound Hlt.
  destruct (find _ _) as [t|] eqn:Hfind; [|done].
  apply find_some in Hfind as [Hin Heq]. apply Z.eqb_eq in Heq.
  rewrite Forall_forall in Hbound. apply list_elem_of_In, Hbound in Hin. lia.
Qed.

(** X4. A [POST /tasks] that stores the task (a title and a description the
    server accepts, a sequence not exhausted) gives it an id no stored task
    has, owned by the caller.  Afterwards the caller reads it back by that
    id and finds it in the caller's list next to the tasks listed before,
    another user gets 404 for it and sees an unchanged list, and every other
    id resolves as before. *)
Theorem create_task_then_read {S : Postgres}
    (db : database.AsyncSession) (caller other : models.User)
    (body : schemas.TaskCreate) (now : Z) :
  Forall (λ t, models.Task_id t ≤ database.Task_id_seq db) (database.Task_table db) →
  models.User_id other ≠ models.User_id caller →
  binds_text (schemas.TaskCreate_title body) = true →
  binds_text (schemas.TaskCreate_description body) = true →
  fits_index (schemas.TaskCreate_title body) = true →
  fits_index (schemas.TaskCreate_description body) = true →
  database.int32 (database.Task_id_seq db + 1) = true →
  let new_id := database.Task_id_seq db + 1 in
  let new_task :=
    models.mkTask new_id (schemas.TaskCreate_title body)
      (schemas.TaskCreate_description body) (schemas.TaskCreate_is_complete body)
      (models.User_id caller) now in
  ∃ db1 tasks,
    create_task body db caller now = (Return new_task, db1) ∧
    database.get_Task db new_id = Return None ∧
    get_task new_id db1 caller = Return new_task ∧
    get_task new_id db1 other = Raise task_not_found ∧
    get_tasks db1 caller = Return tasks ∧
    tasks ≡ₚ new_task :: database.all_Task_by_owner db (models.User_id caller) ∧
    get_tasks db1 other = get_tasks db other ∧
    (∀ task_id, task_id ≠ new_id →
       database.get_Task db1 task_id = database.get_Task db task_id).
Proof.
  intros Hbound Hother Hbt Hbd Hft Hfd Hseq new_id new_task.
  pose proof (find_beyond_seq db new_id Hbound ltac:(unfold new_id; lia)) as Hfresh.
  set (db1 := database.mkSession (database.User_table db)
                (database.Task_table db ++ [new_task])
                (database.User_id_seq db) (database.Task_id_seq db + 1)).
  exists db1, (database.all_Task_by_owner db (models.User_id caller) ++ [new_task]).
  assert (Hnew : database.get_Task db1 new_id = Return (Some new_task)).
  { unfold database.get_Task. fold new_id in Hseq. rewrite Hseq. simpl. f_equal.
    apply find_snoc_fresh; [exact Hfresh|]. simpl. apply Z.eqb_refl. }
  split; [|split; [|split; [|split; [|split; [|split; [|split]]]]]].
  - unfold create_task, database.add_Task. by rewrite Hbt, Hbd, Hft, Hfd, Hseq.
  - unfold database.get_Task. fold new_id in Hseq. by rewrite Hseq, Hfresh.
  - unfold get_task. rewrite Hnew. simpl. by rewrite Z.eqb_refl.
  - unfold get_task. rewrite Hnew. simpl.
    apply not_eq_sym, Z.eqb_neq in Hother. by rewrite Hother.
  - unfold get_tasks, database.all_Task_by_owner. simpl.
    rewrite List.filter_app. simpl. by rewrite Z.eqb_refl.
  - symmetry. apply Permutation_cons_append.
  - unfold get_tasks, database.all_Task_by_owner. simpl.
    rewrite List.filter_app. simpl.
    apply not_eq_sym, Z.eqb_neq in Hother. rewrite Hother. by rewrite app_nil_r.
  - intros task_id Hne. unfold database.get_Task. simpl.
    destruct (database.int32 task_id); [|done]. f_equal.
    apply find_snoc_old. simpl. apply Z.eqb_neq. unfold new_id in Hne. lia.
Qed.

Lemma create_task_then_read_witness :
  Forall (λ t, models.Task_id t ≤ database.Task_id_seq symbolic.store)
    (database.Task_table symbolic.store) ∧
  models.User_id symbolic.bob ≠ models.User_id symbolic.alice ∧
  ∃ db1,
    @create_task symbolic.postgres (schemas.mkTaskCreate "t" "d" false) symbolic.store
      symbolic.alice 9
    = (Return (models.mkTask 3 "t" "d" false 1 9), db1) ∧
    get_task 3 db1 symbolic.alice = Return (models.mkTask 3 "t" "d" false 1 9) ∧
    get_task 3 db1 symbolic.bob = Raise task_not_found.
Proof.
  assert (Hbound : Forall (λ t, models.Task_id t ≤ database.Task_id_seq symbolic.store)
                     (database.Task_table symbolic.store)).
  { repeat constructor; simpl; lia. }
  assert (Hother : models.User_id symbolic.bob ≠ models.User_id symbolic.alice)
    by (simpl; lia).
  split; [exact Hbound|]. split; [exact Hother|].
  destruct (@create_task_then_read symbolic.postgres symbolic.store symbolic.alice
              symbolic.bob (schemas.mkTaskCreate "t" "d" false) 9 Hbound Hother
              eq_refl eq_refl eq_refl eq_refl eq_refl)
    as (db1 & tasks & Hcreate & _ & Hown & Hforeign & _).
  exists db1. split; [exact Hcreate|]. split; [exact Hown | exact Hforeign].
Defined.

(** X5. A successful [PUT /tasks/{id}] is read-your-writes and idempotent:
    the caller's [GET] of the same id then returns the updated task,
    repeating the same [PUT] returns the same task and leaves the store as
    the first one left it, and every other id resolves as before. *)
Theorem update_task_then_read {S : Postgres}
    (db db1 : database.AsyncSession) (caller : models.User) (task_id : Z)
    (body : schemas.TaskCreate) (updated : models.Task) :
  update_task task_id body db caller = (Return updated, db1) →
  get_task task_id db1 caller = Return updated ∧
  update_task task_id body db1 caller = (Return updated, db1) ∧
  (∀ other, other ≠ task_id →
     database.get_Task db1 other = database.get_Task db other).
Proof.
  unfold update_task at 1.
  destruct (database.get_Task db task_id) as [[task|]|e] eqn:Hget; [|done..].
  destruct (models.Task_owner_id task =? models.User_id caller) eqn:Howner;
    simpl; [|done].
  pose proof (get_Task_id _ _ _ Hget) as Hid.
  pose proof (get_Task_int32 _ _ _ Hget) as Hrange.
  pose proof (get_Task_find _ _ _ Hget) as Hfind. rewrite <- Hid in Hfind.
  assert (Hagain : ∀ db', database.update_Task db'
                     (database.set_fields (schemas.TaskCreate_title body)
                        (schemas.TaskCreate_description body)
                        (schemas.TaskCreate_is_complete body) task)
                     (schemas.TaskCreate_title body)
                     (schemas.TaskCreate_description body)
                     (schemas.TaskCreate_is_complete body)
                   = (Return (database.set_fields (schemas.TaskCreate_title body)
                                (schemas.TaskCreate_description body)
                                (schemas.TaskCreate_is_complete body) task), db')).
  { intros db'. unfold database.update_Task. simpl.
    by rewrite !String.eqb_refl, Bool.eqb_reflx. }
  destruct (update_Task_cases db task (schemas.TaskCreate_title body)
              (schemas.TaskCreate_description body) (schemas.TaskCreate_is_complete body))
    as [-> | [[-> Hsame] | ->]]; [done| |]; intros [= <- <-].
  - rewrite Hsame. split; [|split; [|done]].
    + unfold get_task. by rewrite Hget, Howner.
    + unfold update_task. rewrite Hget, Howner. simpl.
      rewrite <- Hsame at 1. rewrite Hagain. by rewrite Hsame.
  - assert (Hread : database.get_Task
                      (database.mkSession (database.User_table db)
                         (database.rewritten (database.Task_table db) task
                            (schemas.TaskCreate_title body)
                            (schemas.TaskCreate_description body)
                            (schemas.TaskCreate_is_complete body))
                         (database.User_id_seq db) (database.Task_id_seq db)) task_id
                    = Return (Some (database.set_fields (schemas.TaskCreate_title body)
                                      (schemas.TaskCreate_description body)
                                      (schemas.TaskCreate_is_complete body) task))).
    { unfold database.get_Task. rewrite Hrange. simpl. f_equal. rewrite <- Hid.
      by apply find_rewritten_eq. }
    split; [|split].
    + unfold get_task. rewrite Hread. simpl. by rewrite Howner.
    + unfold update_task. rewrite Hread. simpl. rewrite Howner. simpl.
      apply Hagain.
    + intros other Hne. unfold database.get_Task. simpl.
      destruct (database.int32 other); [|done]. f_equal.
      apply find_rewritten_ne. congruence.
Qed.

Lemma update_task_then_read_witness :
  ∃ updated db1,
    @update_task symbolic.postgres 1 (schemas.mkTaskCreate "shopping" "bread" true)
      symbolic.store symbolic.alice = (Return updated, db1) ∧
    get_task 1 db1 symbolic.alice = Return updated.
Proof.
  eexists _, _. split; [reflexivity|].
  exact (proj1 (@update_task_then_read symbolic.postgres symbolic.store _
                  symbolic.alice 1 (schemas.mkTaskCreate "shopping" "bread" true) _
                  eq_refl)).
Defined.

(** ** What a request can and cannot change *)

Section frames.

Context {J : Jose} {P : Passlib} {S : Postgres}.

(** What a route can do to the store when it answers with an error, and
    what it can do to the users and the sequences whatever it answers. *)
Lemma endpoint_frame (route : Route) (user : models.User) (db : database.AsyncSession)
    (now : Z) :
  database.User_table (snd (endpoint route user db now)) = database.User_table db ∧
  database.User_id_seq (snd (endpoint route user db now)) = database.User_id_seq db ∧
  database.Task_id_seq db ≤ database.Task_id_seq (snd (endpoint route user db now)) ∧
  (400 ≤ status_code (fst (endpoint route user db now)) →
   database.Task_table (snd (endpoint route user db now)) = database.Task_table db).
Proof.
  destruct route as [|task| |task_id|task_id task|task_id]; simpl;
    try (repeat split; simpl; done || lia).
  - unfold create_task.
    destruct (add_Task_cases db (schemas.TaskCreate_title task)
                (schemas.TaskCreate_description task)
                (schemas.TaskCreate_is_complete task) (models.User_id user) now)
      as [-> | [-> | ->]]; simpl; repeat split; simpl; try done; lia.
  - unfold update_task.
    destruct (get_Task_cases db task_id) as [-> | [[t|] ->]];
      [by repeat split| |by repeat split].
    destruct (models.Task_owner_id t =? models.User_id user); simpl;
      [|by repeat split].
    destruct (update_Task_cases db t (schemas.TaskCreate_title task)
                (schemas.TaskCreate_description task)
                (schemas.TaskCreate_is_complete task))
      as [-> | [[-> _] | ->]]; simpl; repeat split; simpl; try done; lia.
  - unfold delete_task.
    destruct (get_Task_cases db task_id) as [-> | [[t|] ->]];
      [by repeat split| |by repeat split].
    destruct (models.Task_owner_id t =? models.User_id user); simpl;
      repeat split; simpl; try done; lia.
Qed.

End frames.

(** X6. A request that is answered with an error status (400 and above)
    has stored, changed and removed no row: both tables are as before.  A
    sequence may have moved on: a refused [INSERT] can lose the id it
    drew. *)
Theorem error_leaves_rows_unchanged {J : Jose} {P : Passlib} {S : Postgres}
    (req : Request) (db : database.AsyncSession) (s : salt) (now : Z) :
  400 ≤ status_code (fst (app req db s now)) →
  database.User_table (snd (app req db s now)) = database.User_table db ∧
  database.Task_table (snd (app req db s now)) = database.Task_table db ∧
  database.User_id_seq db ≤ database.User_id_seq (snd (app req db s now)) ∧
  database.Task_id_seq db ≤ database.Task_id_seq (snd (app req db s now)).
Proof.
  destruct req as [user|form_username form_password|authorization route].
  - unfold app, register.
    destruct (get_user db (schemas.UserCreate_username user)) as [[u|]|e];
      [intros _; repeat split; simpl; lia| |intros _; repeat split; simpl; lia].
    destruct (get_password_hash s (schemas.UserCreate_password user)) as [hashed|e];
      [|intros _; repeat split; simpl; lia].
    destruct (add_User_cases db (schemas.UserCreate_username user) hashed now)
      as [-> | [-> | ->]]; simpl; intros Hstatus; repeat split; simpl; lia.
  - intros _. simpl. repeat split; lia.
  - destruct authorization as [tok|]; [|intros _; simpl; repeat split; lia].
    rewrite app_Bearer.
    destruct (Depends_get_current_user route db tok now) as [user|e];
      [|intros _; simpl; repeat split; lia].
    destruct (endpoint_frame route user db now) as (Hu & Hs & Ht & Hrows).
    intros Hstatus. rewrite Hu, Hs. repeat split; [by apply Hrows | lia | exact Ht].
Qed.

Lemma error_leaves_rows_unchanged_witness :
  400 ≤ status_code
          (fst (@app symbolic.jose symbolic.passlib symbolic.postgres
                  (Bearer (Some symbolic.alice_token)
                     (PUT_task 1 (schemas.mkTaskCreate symbolic.nul_name "milk" false)))
                  symbolic.store "s3" symbolic.later)) ∧
  database.Task_table
    (snd (@app symbolic.jose symbolic.passlib symbolic.postgres
            (Bearer (Some symbolic.alice_token)
               (PUT_task 1 (schemas.mkTaskCreate symbolic.nul_name "milk" false)))
            symbolic.store "s3" symbolic.later))
  = [symbolic.groceries; symbolic.laundry].
Proof.
  assert (Herror : 400 ≤ status_code
                           (fst (@app symbolic.jose symbolic.passlib symbolic.postgres
                                   (Bearer (Some symbolic.alice_token)
                                      (PUT_task 1
                                         (schemas.mkTaskCreate symbolic.nul_name "milk"
                                            false)))
                                   symbolic.store "s3" symbolic.later))).
  { vm_compute. discriminate. }
  split; [exact Herror|].
  exact (proj1 (proj2 (@error_leaves_rows_unchanged symbolic.jose symbolic.passlib
                         symbolic.postgres
                         (Bearer (Some symbolic.alice_token)
                            (PUT_task 1
                               (schemas.mkTaskCreate symbolic.nul_name "milk" false)))
                         symbolic.store "s3" symbolic.later Herror))).
Defined.

(** X7. Logging in and the three reading routes never write: whatever the
    credential and whatever they answer, the store is as before. *)
Theorem read_routes_leave_store_unchanged {J : Jose} {P : Passlib} {S : Postgres}
    (db : database.AsyncSession) (s : salt) (now : Z)
    (form_username form_password : string)
    (authorization : option token) (task_id : Z) :
  snd (app (POST_token form_username form_password) db s now) = db ∧
  snd (app (Bearer authorization GET_users_me) db s now) = db ∧
  snd (app (Bearer authorization GET_tasks) db s now) = db ∧
  snd (app (Bearer authorization (GET_task task_id)) db s now) = db.
Proof.
  split; [reflexivity|]. simpl.
  destruct (oauth2_scheme authorization) as [tok|e]; [|done].
  repeat split.
  - by destruct (get_current_user_TokenData db tok now).
  - by destruct (get_current_user tok db now).
  - by destruct (get_current_user tok db now).
Qed.

(** X8. User rows are only ever appended, and only by [POST /register]:
    after any request the user table is the old one followed by at most one
    new row, a new row means the request was a registration, and neither
    sequence has gone backwards. *)
Theorem users_are_append_only {J : Jose} {P : Passlib} {S : Postgres}
    (req : Request) (db : database.AsyncSession) (s : salt) (now : Z) :
  let db1 := snd (app req db s now) in
  ∃ added,
    database.User_table db1 = database.User_table db ++ added ∧
    (length added ≤ 1)%nat ∧
    (added ≠ [] → ∃ user, req = POST_register user) ∧
    database.User_id_seq db ≤ database.User_id_seq db1 ∧
    database.Task_id_seq db ≤ database.Task_id_seq db1.
Proof.
  cbv zeta.
  assert (Hnone : ∀ db1 : database.AsyncSession,
            database.User_table db1 = database.User_table db →
            database.User_id_seq db ≤ database.User_id_seq db1 →
            database.Task_id_seq db ≤ database.Task_id_seq db1 →
            ∃ added,
              database.User_table db1 = database.User_table db ++ added ∧
              (length added ≤ 1)%nat ∧
              (added ≠ [] → ∃ user, req = POST_register user) ∧
              database.User_id_seq db ≤ database.User_id_seq db1 ∧
              database.Task_id_seq db ≤ database.Task_id_seq db1).
  { intros db1 Hu Hs Ht. exists []. rewrite app_nil_r.
    repeat split; simpl; done || lia. }
  destruct req as [user|form_username form_password|authorization route].
  - unfold app, register.
    destruct (get_user db (schemas.UserCreate_username user)) as [[u|]|e];
      [apply Hnone; simpl; done || lia| |apply Hnone; simpl; done || lia].
    destruct (get_password_hash s (schemas.UserCreate_password user)) as [hashed|e];
      [|apply Hnone; simpl; done || lia].
    destruct (add_User_cases db (schemas.UserCreate_username user) hashed now)
      as [-> | [-> | ->]]; [apply Hnone; simpl; done || lia..|].
    simpl. eexists [_]. repeat split; simpl; try lia. intros _. by exists user.
  - apply Hnone; simpl; done || lia.
  - destruct authorization as [tok|]; [|apply Hnone; simpl; done || lia].
    rewrite app_Bearer.
    destruct (Depends_get_current_user route db tok now) as [user|e];
      [|apply Hnone; simpl; done || lia].
    destruct (endpoint_frame route user db now) as (Hu & Hs & Ht & _).
    apply Hnone; [exact Hu | lia | exact Ht].
Qed.

Lemma NoDup_map_In_inj {A B : Type} (f : A → B) (l : list A) (a b : A) :
  NoDup (List.map f l) → In a l → In b l → f a = f b → a = b.
Proof.
  induction l as [|x l IH]; simpl; [done|].
  intros Hnd Ha Hb Heq. apply NoDup_cons in Hnd as [Hnotin Hnd].
  destruct Ha as [-> | Ha], Hb as [-> | Hb]; try done.
  - exfalso. apply Hnotin. rewrite Heq. by apply list_elem_of_In, in_map.
  - exfalso. apply Hnotin. rewrite <- Heq. by apply list_elem_of_In, in_map.
  - by apply IH.
Qed.

(** X10. No route lets a user write to another user's task: with unique
    primary keys, every task row owned by someone other than the caller is
    still in the table, unchanged, after the caller's request. *)
Theorem other_users_tasks_are_untouched {J : Jose} {S : Postgres}
    (route : Route) (caller : models.User) (db : database.AsyncSession) (now : Z)
    (t : models.Task) :
  NoDup (List.map models.Task_id (database.Task_table db)) →
  In t (database.Task_table db) →
  models.Task_owner_id t ≠ models.User_id caller →
  In t (database.Task_table (snd (endpoint route caller db now))).
Proof.
  intros Hpk Hin Hforeign.
  assert (Hother : ∀ task_id mine,
            database.get_Task db task_id = Return (Some mine) →
            (models.Task_owner_id mine =? models.User_id caller) = true →
            (models.Task_id t =? models.Task_id mine) = false).
  { intros task_id mine Hget Howner. apply Z.eqb_eq in Howner. apply Z.eqb_neq.
    intros Hid. apply get_Task_In in Hget.
    pose proof (NoDup_map_In_inj _ _ _ _ Hpk Hin Hget Hid). congruence. }
  destruct route as [|task| |task_id|task_id task|task_id]; simpl; try done.
  - unfold create_task.
    destruct (add_Task_cases db (schemas.TaskCreate_title task)
                (schemas.TaskCreate_description task)
                (schemas.TaskCreate_is_complete task) (models.User_id caller) now)
      as [-> | [-> | ->]]; simpl; [done..|].
    apply in_or_app. by left.
  - unfold update_task.
    destruct (database.get_Task db task_id) as [[mine|]|e] eqn:Hget; [|done..].
    destruct (models.Task_owner_id mine =? models.User_id caller) eqn:Howner;
      simpl; [|done].
    destruct (update_Task_cases db mine (schemas.TaskCreate_title task)
                (schemas.TaskCreate_description task)
                (schemas.TaskCreate_is_complete task))
      as [-> | [[-> _] | ->]]; simpl; [done..|].
    unfold database.rewritten. apply in_or_app. left.
    apply filter_In. split; [done|].
    by rewrite (Hother _ _ Hget Howner).
  - unfold delete_task.
    destruct (database.get_Task db task_id) as [[mine|]|e] eqn:Hget; [|done..].
    destruct (models.Task_owner_id mine =? models.User_id caller) eqn:Howner;
      simpl; [|done].
    apply filter_In. split; [done|].
    by rewrite (Hother _ _ Hget Howner).
Qed.

Lemma other_users_tasks_are_untouched_witness :
  NoDup (List.map models.Task_id (database.Task_table symbolic.store)) ∧
  In symbolic.laundry (database.Task_table symbolic.store) ∧
  models.Task_owner_id symbolic.laundry ≠ models.User_id symbolic.alice ∧
  In symbolic.laundry
    (database.Task_table
       (snd (@endpoint symbolic.jose symbolic.postgres (DELETE_task 2) symbolic.alice
               symbolic.store 0))).
Proof.
  assert (Hin : In symbolic.laundry (database.Task_table symbolic.store))
    by (right; left; reflexivity).
  assert (Hforeign : models.Task_owner_id symbolic.laundry ≠ models.User_id symbolic.alice)
    by (simpl; lia).
  pose proof (database.Task_pk _ symbolic_store_consistent) as Hpk.
  split; [exact Hpk|]. split; [exact Hin|]. split; [exact Hforeign|].
  exact (@other_users_tasks_are_untouched symbolic.jose symbolic.postgres
           (DELETE_task 2) symbolic.alice symbolic.store 0 symbolic.laundry
           Hpk Hin Hforeign).
Defined.

(** X11. The frame of a delete: with unique primary keys, a successful
    [DELETE /tasks/{id}] takes exactly the caller's row out of the task
    table and keeps every other row, in order; users and sequences are as
    before. *)
Theorem delete_task_frame {J : Jose}
    (db : database.AsyncSession) (caller : models.User) (task_id : Z)
    (task : models.Task) :
  NoDup (List.map models.Task_id (database.Task_table db)) →
  database.get_Task db task_id = Return (Some task) →
  models.Task_owner_id task = models.User_id caller →
  ∃ before after,
    database.Task_table db = before ++ task :: after ∧
    delete_task task_id db caller
    = (Return (JObj [("detail", JStr "Task deleted")]),
       database.mkSession (database.User_table db) (before ++ after)
         (database.User_id_seq db) (database.Task_id_seq db)).
Proof.
  intros Hpk Hget Howner.
  pose proof (get_Task_id _ _ _ Hget) as Hid.
  pose proof (get_Task_find _ _ _ Hget) as Hfind.
  destruct (filter_split_unique _ _ _ Hpk Hfind)
    as (before & after & Htable & Hfilter & _).
  exists before, after. split; [exact Htable|].
  unfold delete_task. rewrite Hget.
  apply Z.eqb_eq in Howner. rewrite Howner. simpl.
  unfold database.delete_Task. by rewrite Hid, Hfilter.
Qed.

Lemma delete_task_frame_witness :
  NoDup (List.map models.Task_id (database.Task_table symbolic.store)) ∧
  ∃ before after,
    database.Task_table symbolic.store = before ++ symbolic.groceries :: after ∧
    @delete_task symbolic.jose 1 symbolic.store symbolic.alice
    = (Return (JObj [("detail", JStr "Task deleted")]),
       database.mkSession [symbolic.alice; symbolic.bob] (before ++ after) 2 2).
Proof.
  pose proof (database.Task_pk _ symbolic_store_consistent) as Hpk.
  split; [exact Hpk|].
  exact (@delete_task_frame symbolic.jose symbolic.store symbolic.alice 1
           symbolic.groceries Hpk eq_refl eq_refl).
Defined.

(** X12. [GET /tasks] lists exactly the caller's tasks: a task is in the
    returned list if and only if it is stored and its owner is the caller. *)
Theorem get_tasks_lists_own_tasks (db : database.AsyncSession) (caller : models.User) :
  ∃ tasks,
    get_tasks db caller = Return tasks ∧
    ∀ t, In t tasks ↔
         In t (database.Task_table db) ∧ models.Task_owner_id t = models.User_id caller.
Proof.
  eexists. split; [reflexivity|]. intros t.
  unfold database.all_Task_by_owner. rewrite filter_In.
  by rewrite Z.eqb_eq.
Qed.

(** ** More on tokens *)

(** X13. How long a token lives.  A token issued for subject [s] with a
    non-zero delta [t] is refused with 401 once the clock, in whole seconds,
    has passed the expiry second; until then [get_current_user] looks [s]
    up: it returns whoever is stored under [s], raises the 401 when nobody
    is, and raises what the lookup raises when the server refuses [s]. *)
Theorem token_lifetime {J : Jose} {S : Postgres} {L : JoseLaws J}
    (s : string) (t issued now : Z) (db : database.AsyncSession) :
  t ≠ 0 →
  get_current_user (create_access_token {["sub" := PStr s]} (Some t) issued) db now
  = if timegm (issued + t) <? timegm now then Raise credentials_exception
    else match get_user db s with
         | Return (Some user) => Return user
         | Return None => Raise credentials_exception
         | Raise e => Raise e
         end.
Proof.
  intros Hnz. unfold get_current_user, create_access_token, to_encode, payload_get.
  apply Z.eqb_neq in Hnz. rewrite Hnz, jwt_decode_encode.
  destruct (timegm (issued + t) <? timegm now); [done|].
  rewrite lookup_insert_ne by done. by rewrite lookup_singleton_eq.
Qed.

Lemma token_lifetime_witness :
  timedelta_minutes 30 ≠ 0 ∧
  @get_current_user symbolic.jose symbolic.postgres symbolic.alice_token symbolic.store
    (31 * 60 * 1000000)
  = Raise credentials_exception.
Proof.
  assert (Hnz : timedelta_minutes 30 ≠ 0) by (unfold timedelta_minutes; lia).
  split; [exact Hnz|].
  exact (@token_lifetime symbolic.jose symbolic.postgres symbolic_jose_laws "alice"
           (timedelta_minutes 30) 0 (31 * 60 * 1000000) symbolic.store Hnz).
Defined.

(** X14. [create_access_token] does not check the sign of the delta: a
    token issued with a delta of minus one second or less is refused at
    every clock from its issuance on. *)
Theorem negative_delta_token_is_refused {J : Jose} {S : Postgres} {L : JoseLaws J}
    (s : string) (t issued now : Z) (db : database.AsyncSession) :
  t ≤ - 1000000 →
  issued ≤ now →
  get_current_user (create_access_token {["sub" := PStr s]} (Some t) issued) db now
  = Raise credentials_exception.
Proof.
  intros Hneg Hlater.
  apply expired_token_is_unauthorized; [lia|].
  unfold timegm.
  assert ((issued + t) `div` 1000000 ≤ (issued - 1000000) `div` 1000000)
    by (apply Z.div_le_mono; lia).
  assert ((issued - 1000000) `div` 1000000 = issued `div` 1000000 - 1).
  { replace (issued - 1000000) with (issued + (-1) * 1000000) by lia.
    rewrite Z.div_add by lia. lia. }
  assert (issued `div` 1000000 ≤ now `div` 1000000) by (apply Z.div_le_mono; lia).
  lia.
Qed.

Lemma negative_delta_token_is_refused_witness :
  - 5000000 ≤ - 1000000 ∧ 0 ≤ 0 ∧
  @get_current_user symbolic.jose symbolic.postgres
    (@create_access_token symbolic.jose {["sub" := PStr "alice"]} (Some (- 5000000)) 0)
    symbolic.store 0
  = Raise credentials_exception.
Proof.
  assert (Hneg : - 5000000 ≤ - 1000000) by lia.
  assert (Hlater : 0 ≤ 0) by lia.
  split; [exact Hneg|]. split; [exact Hlater|].
  exact (@negative_delta_token_is_refused symbolic.jose symbolic.postgres
           symbolic_jose_laws "alice" (- 5000000) 0 0 symbolic.store Hneg Hlater).
Defined.

(** X15. What [create_access_token] puts in the payload: a zero delta is
    treated like a missing one, the [exp] claim is always set to a
    [datetime] (overwriting one the caller supplied), and every other claim
    of the caller's dictionary is passed on as it is. *)
Theorem to_encode_claims {J : Jose}
    (data : gmap string pyval) (expires_delta : option Z) (now : Z) (k : string) :
  create_access_token data (Some 0) now = create_access_token data None now ∧
  (∃ expire, to_encode data expires_delta now !! "exp" = Some (PDatetime expire)) ∧
  (k ≠ "exp" → to_encode data expires_delta now !! k = data !! k).
Proof.
  split; [reflexivity|]. unfold to_encode. split.
  - eexists. apply lookup_insert_eq.
  - intros Hne. by rewrite lookup_insert_ne.
Qed.

(** ** Unhandled exceptions *)

(** X16. The signing key is a constant of the source, so anybody can issue
    a token.  One issued for a subject that holds U+0000 is answered, while
    it has not expired, with 500 on every route behind the bearer scheme:
    the lookup of the subject is outside the [try], and nothing catches
    what it raises.  The store is untouched. *)
Theorem nul_subject_is_internal_error {J : Jose} {P : Passlib} {S : Postgres}
    {LJ : JoseLaws J} {LS : PostgresLaws S}
    (route : Route) (subject : string) (t issued now : Z)
    (db : database.AsyncSession) (s : salt) :
  has_nul subject = true →
  now ≤ issued + t →
  app (Bearer (Some (create_access_token {["sub" := PStr subject]} (Some t) issued))
         route) db s now
  = (mkResponse 500 [] (Some (JStr "Internal Server Error")), db).
Proof.
  intros Hnul Hbefore.
  destruct (issued_token_decodes subject t issued now Hbefore)
    as (payload & Hdec & Hsub).
  rewrite app_Bearer, Depends_get_current_user_eq, Hdec, Hsub.
  destruct (get_user_cases db subject) as [[_ ->] | [Hbinds _]]; [done|].
  by rewrite (binds_text_nul _ Hnul) in Hbinds.
Qed.

Lemma nul_subject_is_internal_error_witness :
  has_nul symbolic.nul_name = true ∧
  symbolic.later ≤ 0 + timedelta_minutes 30 ∧
  @app symbolic.jose symbolic.passlib symbolic.postgres
    (Bearer (Some symbolic.forged_token) GET_users_me) symbolic.store "s3" symbolic.later
  = (mkResponse 500 [] (Some (JStr "Internal Server Error")), symbolic.store).
Proof.
  assert (Hbefore : symbolic.later ≤ 0 + timedelta_minutes 30)
    by (unfold symbolic.later, timedelta_minutes; lia).
  split; [reflexivity|]. split; [exact Hbefore|].
  exact (@nul_subject_is_internal_error symbolic.jose symbolic.passlib symbolic.postgres
           symbolic_jose_laws symbolic_postgres_laws GET_users_me symbolic.nul_name
           (timedelta_minutes 30) 0 symbolic.later symbolic.store "s3"
           eq_refl Hbefore).
Defined.

(** X17. A task id outside the range of the [INTEGER] key is answered with
    500 by each of the three routes that take one, whoever asks; the store
    is untouched. *)
Theorem task_id_out_of_range_is_internal_error {J : Jose} {S : Postgres}
    (db : database.AsyncSession) (caller : models.User) (task_id : Z)
    (body : schemas.TaskCreate) (now : Z) :
  task_id < -2147483648 ∨ 2147483647 < task_id →
  let internal_error := mkResponse 500 [] (Some (JStr "Internal Server Error")) in
  endpoint (GET_task task_id) caller db now = (internal_error, db) ∧
  endpoint (PUT_task task_id body) caller db now = (internal_error, db) ∧
  endpoint (DELETE_task task_id) caller db now = (internal_error, db).
Proof.
  intros Hrange. cbv zeta.
  assert (Hget : database.get_Task db task_id = Raise DBAPIError).
  { unfold database.get_Task, database.int32.
    destruct (-2147483648 <=? task_id) eqn:Elo; simpl; [|done].
    destruct (task_id <=? 2147483647) eqn:Ehi; [|done].
    apply Z.leb_le in Elo, Ehi. lia. }
  unfold endpoint, get_task, update_task, delete_task. by rewrite Hget.
Qed.

Lemma task_id_out_of_range_is_internal_error_witness :
  (-2147483649 < -2147483648 ∨ 2147483647 < -2147483649) ∧
  @endpoint symbolic.jose symbolic.postgres (DELETE_task (-2147483649)) symbolic.bob
    symbolic.store 0
  = (mkResponse 500 [] (Some (JStr "Internal Server Error")), symbolic.store).
Proof.
  assert (Hrange : -2147483649 < -2147483648 ∨ 2147483647 < -2147483649)
    by (left; lia).
  split; [exact Hrange|].
  exact (proj2 (proj2 (@task_id_out_of_range_is_internal_error symbolic.jose
                         symbolic.postgres symbolic.store symbolic.bob (-2147483649)
                         (schemas.mkTaskCreate "t" "d" false) 0 Hrange))).
Defined.

(** X18. No handler checks a text before it reaches the server, and none
    catches what the server raises.  A username the server refuses as a
    parameter is answered with 500 by [POST /register] and by [POST /token],
    and a title the server refuses is answered with 500 by [POST /tasks];
    nothing is stored. *)
Theorem refused_text_is_internal_error {J : Jose} {P : Passlib} {S : Postgres}
    (db : database.AsyncSession) (u p : string) (body : schemas.TaskCreate)
    (caller : models.User) (s : salt) (now : Z) :
  let internal_error := mkResponse 500 [] (Some (JStr "Internal Server Error")) in
  (binds_text u = false →
   app (POST_register (schemas.mkUserCreate u p)) db s now = (internal_error, db) ∧
   app (POST_token u p) db s now = (internal_error, db)) ∧
  (binds_text (schemas.TaskCreate_title body) = false →
   endpoint (POST_tasks body) caller db now = (internal_error, db)).
Proof.
  cbv zeta. split.
  - intros Hrefused.
    unfold app, register, login_for_access_token, authenticate_user, get_user,
      database.first_User_by_username.
    cbn [schemas.UserCreate_username]. by rewrite Hrefused.
  - intros Hrefused. unfold endpoint, create_task, database.add_Task.
    by rewrite Hrefused.
Qed.

Lemma refused_text_is_internal_error_witness :
  @binds_text symbolic.postgres symbolic.nul_name = false ∧
  @app symbolic.jose symbolic.passlib symbolic.postgres
    (POST_token symbolic.nul_name "pw1") symbolic.store "s3" 0
  = (mkResponse 500 [] (Some (JStr "Internal Server Error")), symbolic.store).
Proof.
  split; [reflexivity|].
  exact (proj2 (proj1 (@refused_text_is_internal_error symbolic.jose symbolic.passlib
                         symbolic.postgres symbolic.store symbolic.nul_name "pw1"
                         (schemas.mkTaskCreate "t" "d" false) symbolic.alice "s3" 0)
                  eq_refl)).
Defined.

(** ** The store holds only what the server accepted *)

Section acceptance.

Context {J : Jose} {P : Passlib} {S : Postgres}.

(** A user row is stored only with texts the server accepted. *)
Lemma add_User_accepted (db db1 : database.AsyncSession)
    (username hashed_password : string) (now : Z) (user : models.User) :
  database.add_User db username hashed_password now = (Return user, db1) →
  binds_text username = true ∧ fits_index username = true ∧
  binds_text hashed_password = true.
Proof.
  unfold database.add_User.
  destruct (binds_text username), (binds_text hashed_password); simpl; try done.
  destruct (database.int32 (database.User_id_seq db + 1)); simpl; [|done].
  by destruct (fits_index username).
Qed.

(** A task row is stored only with texts the server accepted. *)
Lemma add_Task_accepted (db db1 : database.AsyncSession)
    (title description : string) (is_complete : bool) (owner_id now : Z)
    (task : models.Task) :
  database.add_Task db title description is_complete owner_id now = (Return task, db1) →
  (binds_text title = true ∧ fits_index title = true) ∧
  (binds_text description = true ∧ fits_index description = true).
Proof.
  unfold database.add_Task.
  destruct (binds_text title), (binds_text description); simpl; try done.
  destruct (database.int32 (database.Task_id_seq db + 1)); simpl; [|done].
  by destruct (fits_index title), (fits_index description).
Qed.

(** An update that goes through leaves the row with accepted texts: a text
    it wrote was checked, a text it did not write was there before. *)
Lemma update_Task_accepted_texts (db db1 : database.AsyncSession)
    (db_task updated : models.Task) (title description : string) (is_complete : bool) :
  database.update_Task db db_task title description is_complete = (Return updated, db1) →
  binds_text (models.Task_title db_task) = true ∧
  fits_index (models.Task_title db_task) = true →
  binds_text (models.Task_description db_task) = true ∧
  fits_index (models.Task_description db_task) = true →
  (binds_text title = true ∧ fits_index title = true) ∧
  (binds_text description = true ∧ fits_index description = true).
Proof.
  unfold database.update_Task. cbv zeta.
  destruct (String.eqb title (models.Task_title db_task)) eqn:Et;
    destruct (String.eqb description (models.Task_description db_task)) eqn:Ed;
    try (apply String.eqb_eq in Et; rewrite Et);
    try (apply String.eqb_eq in Ed; rewrite Ed);
    intros Hupdate Htitle Hdescription; simpl in Hupdate;
    try done;
    repeat match type of Hupdate with
           | context [binds_text ?x] => destruct (binds_text x) eqn:?
           | context [fits_index ?x] => destruct (fits_index x) eqn:?
           end;
    simpl in Hupdate; rewrite ?orb_true_r in Hupdate; simpl in Hupdate;
    try done; intuition congruence.
Qed.

End acceptance.

(** X19. The store holds only texts the server accepted.  Every request,
    whether it succeeds or fails, takes a store in which every username,
    digest, title and description is a text the server binds, and every
    indexed one fits its index, to a store of that kind: a row is stored,
    or rewritten, only with texts that passed through the server. *)
Theorem app_preserves_accepted {J : Jose} {P : Passlib} {S : Postgres}
    (req : Request) (db : database.AsyncSession) (s : salt) (now : Z) :
  database.accepted db → database.accepted (snd (app req db s now)).
Proof.
  intros Ha. pose proof Ha as [Husers Htasks].
  assert (Hbump : ∀ useq tseq,
            database.accepted
              (database.mkSession (database.User_table db) (database.Task_table db)
                 useq tseq)) by (intros; by split).
  destruct req as [user|form_username form_password|authorization route].
  - unfold app, register.
    destruct (get_user db (schemas.UserCreate_username user)) as [[u|]|e];
      [done| |done].
    destruct (get_password_hash s (schemas.UserCreate_password user)) as [hashed|e];
      [|done].
    pose proof (add_User_accepted db
                  (database.mkSession
                     (database.User_table db
                      ++ [models.mkUser (database.User_id_seq db + 1)
                            (schemas.UserCreate_username user) hashed now])
                     (database.Task_table db)
                     (database.User_id_seq db + 1) (database.Task_id_seq db))
                  (schemas.UserCreate_username user) hashed now
                  (models.mkUser (database.User_id_seq db + 1)
                     (schemas.UserCreate_username user) hashed now)) as Hchecked.
    destruct (add_User_cases db (schemas.UserCreate_username user) hashed now)
      as [Heq | [Heq | Heq]]; rewrite Heq in *; simpl; [done|apply Hbump|].
    split; simpl; [|done].
    apply Forall_app. split; [done|]. apply Forall_singleton. simpl. by apply Hchecked.
  - done.
  - destruct authorization as [tok|]; [|done]. rewrite app_Bearer.
    destruct (Depends_get_current_user route db tok now) as [caller|e]; [|done].
    destruct route as [|task| |task_id|task_id task|task_id]; simpl; try done.
    + unfold create_task.
      pose proof (add_Task_accepted db
                    (database.mkSession (database.User_table db)
                       (database.Task_table db
                        ++ [models.mkTask (database.Task_id_seq db + 1)
                              (schemas.TaskCreate_title task)
                              (schemas.TaskCreate_description task)
                              (schemas.TaskCreate_is_complete task)
                              (models.User_id caller) now])
                       (database.User_id_seq db) (database.Task_id_seq db + 1))
                    (schemas.TaskCreate_title task) (schemas.TaskCreate_description task)
                    (schemas.TaskCreate_is_complete task) (models.User_id caller) now
                    (models.mkTask (database.Task_id_seq db + 1)
                       (schemas.TaskCreate_title task)
                       (schemas.TaskCreate_description task)
                       (schemas.TaskCreate_is_complete task)
                       (models.User_id caller) now)) as Hchecked.
      destruct (add_Task_cases db (schemas.TaskCreate_title task)
                  (schemas.TaskCreate_description task)
                  (schemas.TaskCreate_is_complete task) (models.User_id caller) now)
        as [Heq | [Heq | Heq]]; rewrite Heq in *; simpl; [done|apply Hbump|].
      split; simpl; [done|].
      apply Forall_app. split; [done|]. apply Forall_singleton. simpl. by apply Hchecked.
    + unfold update_task.
      destruct (database.get_Task db task_id) as [[t|]|e] eqn:Hget; [|done..].
      destruct (models.Task_owner_id t =? models.User_id caller); simpl; [|done].
      assert (Hstored : (binds_text (models.Task_title t) = true ∧
                         fits_index (models.Task_title t) = true) ∧
                        (binds_text (models.Task_description t) = true ∧
                         fits_index (models.Task_description t) = true)).
      { apply get_Task_In in Hget. rewrite Forall_forall in Htasks.
        by apply Htasks, list_elem_of_In. }
      pose proof (λ updated db1 Hupdate,
                    update_Task_accepted_texts db db1 t updated
                      (schemas.TaskCreate_title task)
                      (schemas.TaskCreate_description task)
                      (schemas.TaskCreate_is_complete task) Hupdate
                      (proj1 Hstored) (proj2 Hstored)) as Hchecked.
      destruct (update_Task_cases db t (schemas.TaskCreate_title task)
                  (schemas.TaskCreate_description task)
                  (schemas.TaskCreate_is_complete task))
        as [Heq | [[Heq _] | Heq]]; rewrite Heq in *; simpl; [done..|].
      specialize (Hchecked _ _ eq_refl).
      split; simpl; [done|]. unfold database.rewritten.
      apply Forall_app. split.
      * rewrite Forall_forall in Htasks |- *. intros r Hin.
        apply list_elem_of_In, filter_In in Hin as [Hin _].
        by apply Htasks, list_elem_of_In.
      * apply Forall_forall. intros r Hin.
        apply list_elem_of_In, in_map_iff in Hin as (r' & <- & _). simpl.
        exact Hchecked.
    + unfold delete_task.
      destruct (database.get_Task db task_id) as [[t|]|e]; [|done..].
      destruct (models.Task_owner_id t =? models.User_id caller); simpl; [|done].
      split; simpl; [done|].
      rewrite Forall_forall in Htasks |- *. intros r Hin.
      apply list_elem_of_In, filter_In in Hin as [Hin _].
      by apply Htasks, list_elem_of_In.
Qed.

Lemma symbolic_store_accepted : @database.accepted symbolic.postgres symbolic.store.
Proof. split; repeat constructor. Qed.

Lemma app_preserves_accepted_witness :
  @database.accepted symbolic.postgres
    (snd (@app symbolic.jose symbolic.passlib symbolic.postgres
            (Bearer (Some symbolic.alice_token)
               (PUT_task 1 (schemas.mkTaskCreate "shopping" "bread" true)))
            symbolic.store "s3" symbolic.later)).
Proof.
  exact (@app_preserves_accepted symbolic.jose symbolic.passlib symbolic.postgres
           (Bearer (Some symbolic.alice_token)
              (PUT_task 1 (schemas.mkTaskCreate "shopping" "bread" true)))
           symbolic.store "s3" symbolic.later symbolic_store_accepted).
Defined.
